(** * tgCli: the interactive GSQL session client

    A shallow embedding of the session negotiator ([GSQLSession.login],
    [GSQLSession.attemptLogin]), the streaming command executor
    ([GSQLSession.executeCommand]), the interactive loop
    ([GSQLSession.startInteractiveSession]) and the cookie artifact
    ([models.GSQLCookie]) of the Go sources, together with the parts of the Go
    standard library these functions call ([strings], [regexp], [unicode/utf8],
    [encoding/json], [encoding/base64]).

    Go strings are byte sequences: they are modelled as [string], one [ascii]
    per byte.  Mutation of the session through the receiver pointer and output
    on the terminal are modelled by explicit state passing in a small state
    and error monad. *)

From Stdlib Require Import Bool Arith NArith List String Ascii Lia Permutation.
Import ListNotations.
Set Warnings "-register-all".
Local Open Scope string_scope.

(* ================================================================== *)
(** * Bytes and byte strings *)

Module bytes.

Definition code (c : ascii) : N := N_of_ascii c.
Definition chr (n : N) : ascii := ascii_of_N n.

Definition between (lo hi : N) (c : ascii) : bool :=
  ((lo <=? code c) && (code c <=? hi))%N.

Definition of_codes (l : list N) : string :=
  string_of_list_ascii (map chr l).

Definition dquote : ascii := chr 34.
Definition bslash : ascii := chr 92.
Definition newline : ascii := chr 10.

Fixpoint rev_onto (s acc : string) : string :=
  match s with
  | EmptyString => acc
  | String c t => rev_onto t (String c acc)
  end.

Definition rev (s : string) : string := rev_onto s "".

Fixpoint map_bytes (f : ascii -> ascii) (s : string) : string :=
  match s with
  | EmptyString => ""
  | String c t => String (f c) (map_bytes f t)
  end.

Fixpoint drop (n : nat) (s : string) : string :=
  match n, s with
  | S k, String _ t => drop k t
  | _, _ => s
  end.

Fixpoint take (n : nat) (s : string) : string :=
  match n, s with
  | S k, String c t => String c (take k t)
  | _, _ => ""
  end.

(** A literal written with single quotes standing for double quotes, a
    convenience for writing JSON texts. *)
Definition js (s : string) : string :=
  map_bytes (fun c => if Ascii.eqb c "'" then dquote else c) s.

End bytes.

(* ================================================================== *)
(** * Package [strings] *)

Module strings.
Import bytes.

(** [strings.Contains(s, substr)]. *)
Fixpoint Contains (s substr : string) : bool :=
  prefix substr s ||
  match s with
  | EmptyString => false
  | String _ t => Contains t substr
  end.

(** [strings.HasSuffix(s, suffix)]. *)
Definition HasSuffix (s suffix : string) : bool :=
  prefix (rev suffix) (rev s).

(** [strings.Split(s, sep)] for a separator that is not empty (the only use
    in the sources is [sep = "__,"]): the pieces between the successive,
    non-overlapping occurrences of [sep], found from left to right.
    [Split_from] returns the piece under construction and the later pieces;
    [skip] counts the bytes of a separator still to be dropped. *)
Fixpoint Split_from (sep : string) (skip : nat) (s : string) : string * list string :=
  match s with
  | EmptyString => ("", [])
  | String c t =>
      match skip with
      | S k => Split_from sep k t
      | O =>
          if prefix sep s
          then ("", let (p, ps) := Split_from sep (String.length sep - 1) t in p :: ps)
          else let (p, ps) := Split_from sep 0 t in (String c p, ps)
      end
  end.

Definition Split (s sep : string) : list string :=
  let (p, ps) := Split_from sep 0 s in p :: ps.

(** The table [asciiSpace] of package [strings]. *)
Definition asciiSpace (c : ascii) : bool :=
  match code c with
  | 9 | 10 | 11 | 12 | 13 | 32 => true
  | _ => false
  end%N.

(** The white space of [unicode.IsSpace] beyond ASCII, in UTF-8: U+0085,
    U+00A0, U+1680, U+2000 to U+200A, U+2028, U+2029, U+202F, U+205F and
    U+3000. *)
Definition wideSpaces : list string :=
  map of_codes
    (List.app [ [194; 133]; [194; 160]; [225; 154; 128] ]
      (List.app
        (map (fun k => [226; 128; k]) [128; 129; 130; 131; 132; 133; 134; 135; 136; 137; 138])
        [ [226; 128; 168]; [226; 128; 169]; [226; 128; 175]; [226; 129; 159];
          [227; 128; 128] ]))%N.

(** Width in bytes of the white-space rune [s] starts with, [0] when it
    starts with none; [wide] lists the encodings longer than one byte. *)
Definition spaceWidth (wide : list string) (s : string) : nat :=
  match s with
  | EmptyString => 0
  | String c _ =>
      if asciiSpace c then 1
      else match find (fun p => prefix p s) wide with
           | Some p => String.length p
           | None => 0
           end
  end.

Fixpoint trimLeft_from (wide : list string) (skip : nat) (s : string) : string :=
  match s with
  | EmptyString => ""
  | String _ t =>
      match skip with
      | S k => trimLeft_from wide k t
      | O =>
          match spaceWidth wide s with
          | O => s
          | S k => trimLeft_from wide k t
          end
      end
  end.

(** [strings.TrimSpace(s)]: leading white-space runes are dropped, then
    trailing ones (a trailing rune is recognised on the reversed string against
    the reversed encodings, which is what decoding the last rune does). *)
Definition TrimSpace (s : string) : string :=
  let l := trimLeft_from wideSpaces 0 s in
  rev (trimLeft_from (map rev wideSpaces) 0 (rev l)).

End strings.

(* ================================================================== *)
(** * Package [regexp], as far as [progressRegex] needs it

    Matching is by derivatives, over bytes.  Every literal of the progress
    pattern is an ASCII byte, and [.] excludes only the line feed, so matching
    byte by byte finds a match exactly when matching rune by rune does. *)

Module regexp.
Import bytes.

Inductive regex : Type :=
| Void : regex
| Eps : regex
| Cls : (ascii -> bool) -> regex
| Cat : regex -> regex -> regex
| Alt : regex -> regex -> regex
| Star : regex -> regex.

Fixpoint nullable (r : regex) : bool :=
  match r with
  | Void => false
  | Eps => true
  | Cls _ => false
  | Cat a b => nullable a && nullable b
  | Alt a b => nullable a || nullable b
  | Star _ => true
  end.

Fixpoint deriv (c : ascii) (r : regex) : regex :=
  match r with
  | Void => Void
  | Eps => Void
  | Cls p => if p c then Eps else Void
  | Cat a b =>
      if nullable a then Alt (Cat (deriv c a) b) (deriv c b)
      else Cat (deriv c a) b
  | Alt a b => Alt (deriv c a) (deriv c b)
  | Star a => Cat (deriv c a) (Star a)
  end.

(** Some prefix of [s] is in the language of [r]. *)
Fixpoint matchPrefix (r : regex) (s : string) : bool :=
  nullable r ||
  match s with
  | EmptyString => false
  | String c t => matchPrefix (deriv c r) t
  end.

(** [Regexp.MatchString]: the pattern is not anchored, some substring of
    [s] matches. *)
Fixpoint MatchString (r : regex) (s : string) : bool :=
  matchPrefix r s ||
  match s with
  | EmptyString => false
  | String _ t => MatchString r t
  end.

Definition Lit (c : ascii) : regex := Cls (Ascii.eqb c).
Definition Plus (r : regex) : regex := Cat r (Star r).
Fixpoint Seq (l : list regex) : regex :=
  match l with
  | [] => Eps
  | [r] => r
  | r :: l' => Cat r (Seq l')
  end.

(** [.] without the [s] flag, [\s] and [\d] of the Perl classes. *)
Definition dot : regex := Cls (fun c => negb (Ascii.eqb c newline)).
Definition cls_s : regex :=
  Cls (fun c => match code c with 9 | 10 | 12 | 13 | 32 => true | _ => false end%N).
Definition cls_d : regex := Cls (between 48 57).

End regexp.

(* ================================================================== *)
(** * Package [unicode/utf8] *)

Module utf8.
Import bytes.

(** A continuation byte, [0x80] to [0xBF]. *)
Definition cont (c : ascii) : bool := between 128 191 c.

(** Width of the encoding that [utf8.DecodeRune] finds at the head of [s]:
    [1] to [4] for a well-formed encoding, [0] when [s] is empty or starts
    with none ([DecodeRune] then answers [RuneError] and width [1]).  The
    ranges of the second byte are those of the table [acceptRanges]. *)
Definition runeWidth (s : string) : nat :=
  match s with
  | EmptyString => 0
  | String b0 t =>
      let x := code b0 in
      if (x <? 128)%N then 1
      else if between 194 223 b0 then
        match t with
        | String b1 _ => if cont b1 then 2 else 0
        | _ => 0
        end
      else if between 224 239 b0 then
        match t with
        | String b1 (String b2 _) =>
            if between (if (x =? 224)%N then 160 else 128)
                       (if (x =? 237)%N then 159 else 191) b1
               && cont b2
            then 3 else 0
        | _ => 0
        end
      else if between 240 244 b0 then
        match t with
        | String b1 (String b2 (String b3 _)) =>
            if between (if (x =? 240)%N then 144 else 128)
                       (if (x =? 244)%N then 143 else 191) b1
               && cont b2 && cont b3
            then 4 else 0
        | _ => 0
        end
      else 0
  end.

(** The encoding of [U+FFFD], the replacement character. *)
Definition replacement : string := of_codes [239; 191; 189]%N.

(** [utf8.EncodeRune]. *)
Definition EncodeRune (r : N) : string :=
  (if r <? 128 then of_codes [r]
   else if r <? 2048 then of_codes [192 + r / 64; 128 + r mod 64]
   else if (1114111 <? r) || ((55296 <=? r) && (r <=? 57343)) then replacement
   else if r <? 65536 then
     of_codes [224 + r / 4096; 128 + (r / 64) mod 64; 128 + r mod 64]
   else
     of_codes [240 + r / 262144; 128 + (r / 4096) mod 64; 128 + (r / 64) mod 64;
               128 + r mod 64])%N.

(** What a loop that decodes a string rune by rune meets. *)
Inductive rune : Type :=
| RByte (c : ascii)        (* a byte below 0x80 *)
| RValid (enc : string)    (* a well-formed encoding of two to four bytes *)
| RInvalid (c : ascii).    (* a byte that starts no well-formed encoding *)

(** The runes of [s], as [for i < len(s)] with [DecodeRuneInString] finds
    them; [skip] counts the bytes of the current encoding still to pass. *)
Fixpoint decodeRunes_from (skip : nat) (s : string) : list rune :=
  match s with
  | EmptyString => []
  | String c t =>
      match skip with
      | S k => decodeRunes_from k t
      | O =>
          if (code c <? 128)%N then RByte c :: decodeRunes_from 0 t
          else match runeWidth s with
               | O => RInvalid c :: decodeRunes_from 0 t
               | S w => RValid (take (S w) s) :: decodeRunes_from w t
               end
      end
  end.

Definition decodeRunes (s : string) : list rune := decodeRunes_from 0 s.

Definition isValidRune (r : rune) : bool :=
  match r with
  | RInvalid _ => false
  | _ => true
  end.

(** [utf8.ValidString]. *)
Definition ValidString (s : string) : bool := forallb isValidRune (decodeRunes s).

Definition coerceRune (r : rune) : string :=
  match r with
  | RByte c => String c ""
  | RValid enc => enc
  | RInvalid _ => replacement
  end.

(** The string coerced to well-formed UTF-8: every byte outside a well-formed
    encoding becomes [U+FFFD]. *)
Definition ToValidUTF8 (s : string) : string :=
  String.concat "" (map coerceRune (decodeRunes s)).

End utf8.

(* ================================================================== *)
(** * Package [encoding/json]

    What [json.Marshal] and [json.Unmarshal] do for structs whose fields are
    strings and booleans, the only ones the session uses.  [Unmarshal] first
    checks that the whole input is one JSON text ([checkValid]) and then
    decodes it: here the input is cut into tokens by a scanner that reads one
    byte at a time, the tokens are parsed into a [value], and the value is
    stored into the struct. *)

Module json.
Import bytes utf8.

Definition eqc (a b : ascii) : bool := Ascii.eqb a b.

(** ** Strings: encoding *)

Definition hexDigit (n : N) : ascii :=
  if (n <? 10)%N then chr (48 + n) else chr (87 + n).

Definition hexVal (c : ascii) : option N :=
  if between 48 57 c then Some (code c - 48)%N
  else if between 97 102 c then Some (code c - 87)%N
  else if between 65 70 c then Some (code c - 55)%N
  else None.

(** The table [htmlSafeSet]: the ASCII bytes from the space on, but for the
    double quote, the backslash and the three characters [&], [<] and [>]. *)
Definition htmlSafe (c : ascii) : bool :=
  between 32 127 c &&
  match code c with
  | 34 | 38 | 60 | 62 | 92 => false
  | _ => true
  end%N.

(** The escape of an ASCII byte that is not in [htmlSafeSet]. *)
Definition escapeByte (c : ascii) : string :=
  match code c with
  | 34 | 92 => String bslash (String c "")
  | 8 => "\b"
  | 12 => "\f"
  | 10 => "\n"
  | 13 => "\r"
  | 9 => "\t"
  | x => "\u00" ++ String (hexDigit (x / 16)) (String (hexDigit (x mod 16)) "")
  end%N.

Definition lineSeparator : string := of_codes [226; 128; 168]%N.
Definition paragraphSeparator : string := of_codes [226; 128; 169]%N.

Definition escapeRune (r : rune) : string :=
  match r with
  | RByte c => if htmlSafe c then String c "" else escapeByte c
  | RInvalid _ => "\ufffd"
  | RValid enc =>
      if String.eqb enc lineSeparator then "\u2028"
      else if String.eqb enc paragraphSeparator then "\u2029"
      else enc
  end.

(** The inside of the JSON string that [appendString] writes for [s], with
    the escaping of HTML characters that [Marshal] turns on. *)
Definition escape (s : string) : string :=
  String.concat "" (map escapeRune (decodeRunes s)).

Definition appendString (s : string) : string :=
  String dquote (escape s ++ String dquote "").

(** ** Strings: decoding *)

(** [getu4]: the number that the escape [\uXXXX] at the head of [s] holds. *)
Definition getu4 (s : string) : option N :=
  match s with
  | String b (String u (String h1 (String h2 (String h3 (String h4 _))))) =>
      if eqc b bslash && eqc u "u" then
        match hexVal h1, hexVal h2, hexVal h3, hexVal h4 with
        | Some x1, Some x2, Some x3, Some x4 =>
            Some (((x1 * 16 + x2) * 16 + x3) * 16 + x4)%N
        | _, _, _, _ => None
        end
      else None
  | _ => None
  end.

Definition isSurrogate (r : N) : bool := ((55296 <=? r) && (r <? 57344))%N.

(** [utf16.DecodeRune], [None] standing for the replacement character. *)
Definition utf16DecodeRune (r1 r2 : N) : option N :=
  if ((55296 <=? r1) && (r1 <? 56320) && (56320 <=? r2) && (r2 <? 57344))%N
  then Some ((r1 - 55296) * 1024 + (r2 - 56320) + 65536)%N
  else None.

Definition unescape (e : ascii) : option ascii :=
  match code e with
  | 34 | 92 | 47 | 39 => Some e
  | 98 => Some (chr 8)
  | 102 => Some (chr 12)
  | 110 => Some (chr 10)
  | 114 => Some (chr 13)
  | 116 => Some (chr 9)
  | _ => None
  end%N.

Definition prepend (p : string) (o : option string) : option string :=
  option_map (String.append p) o.

(** [unquoteBytes] on the inside of a string literal.  [keep] counts the
    bytes of a well-formed encoding still to copy and [skip] the bytes of an
    escape still to pass. *)
Fixpoint unquote_from (keep skip : nat) (s : string) : option string :=
  match s with
  | EmptyString => Some ""
  | String c t =>
      match keep, skip with
      | S k, _ => prepend (String c "") (unquote_from k skip t)
      | O, S d => unquote_from 0 d t
      | O, O =>
          if eqc c bslash then
            match t with
            | EmptyString => None
            | String e _ =>
                if eqc e "u" then
                  match getu4 s with
                  | None => None
                  | Some rr =>
                      if isSurrogate rr then
                        match
                          match getu4 (drop 6 s) with
                          | Some rr1 => utf16DecodeRune rr rr1
                          | None => None
                          end
                        with
                        | Some dec => prepend (EncodeRune dec) (unquote_from 0 11 t)
                        | None => prepend replacement (unquote_from 0 5 t)
                        end
                      else prepend (EncodeRune rr) (unquote_from 0 5 t)
                  end
                else
                  match unescape e with
                  | Some x => prepend (String x "") (unquote_from 0 1 t)
                  | None => None
                  end
            end
          else if eqc c dquote || (code c <? 32)%N then None
          else if (code c <? 128)%N then prepend (String c "") (unquote_from 0 0 t)
          else
            match runeWidth s with
            | O => prepend replacement (unquote_from 0 0 t)
            | S w => prepend (String c "") (unquote_from w 0 t)
            end
      end
  end.

Definition unquote (s : string) : option string := unquote_from 0 0 s.

(** ** The scanner *)

Inductive token : Type :=
| TLBrace | TRBrace | TLBracket | TRBracket | TColon | TComma
| TString (s : string) | TNumber | TTrue | TFalse | TNull.

Inductive numState : Type :=
| NMinus | NZero | NInt | NDot | NFrac | NE | NESign | NExp.

Definition numAccepting (n : numState) : bool :=
  match n with
  | NZero | NInt | NFrac | NExp => true
  | _ => false
  end.

Definition isDigit (c : ascii) : bool := between 48 57 c.
Definition isExp (c : ascii) : bool := eqc c "e" || eqc c "E".

Definition numStep (n : numState) (c : ascii) : option numState :=
  match n with
  | NMinus =>
      if eqc c "0" then Some NZero else if between 49 57 c then Some NInt else None
  | NZero =>
      if eqc c "." then Some NDot else if isExp c then Some NE else None
  | NInt =>
      if isDigit c then Some NInt
      else if eqc c "." then Some NDot else if isExp c then Some NE else None
  | NDot => if isDigit c then Some NFrac else None
  | NFrac => if isDigit c then Some NFrac else if isExp c then Some NE else None
  | NE =>
      if eqc c "+" || eqc c "-" then Some NESign
      else if isDigit c then Some NExp else None
  | NESign => if isDigit c then Some NExp else None
  | NExp => if isDigit c then Some NExp else None
  end.

Inductive lexMode : Type :=
| LValue                              (* between two tokens *)
| LStr (raw : string)                 (* in a string, [raw] read so far *)
| LStrEsc (raw : string)              (* after a backslash *)
| LStrU (raw : string) (k : nat)      (* after [\u], [k] digits to come *)
| LNum (n : numState)
| LLit (rest : string) (t : token)    (* in [true], [false] or [null] *)
| LErr.

Definition lexState : Type := list token * lexMode.

Definition isSpace (c : ascii) : bool :=
  match code c with
  | 32 | 9 | 13 | 10 => true
  | _ => false
  end%N.

Definition snoc (toks : list token) (t : token) : list token := List.app toks [t].

Definition lexValue (toks : list token) (c : ascii) : lexState :=
  if isSpace c then (toks, LValue)
  else if eqc c "{" then (snoc toks TLBrace, LValue)
  else if eqc c "}" then (snoc toks TRBrace, LValue)
  else if eqc c "[" then (snoc toks TLBracket, LValue)
  else if eqc c "]" then (snoc toks TRBracket, LValue)
  else if eqc c ":" then (snoc toks TColon, LValue)
  else if eqc c "," then (snoc toks TComma, LValue)
  else if eqc c dquote then (toks, LStr "")
  else if eqc c "-" then (toks, LNum NMinus)
  else if eqc c "0" then (toks, LNum NZero)
  else if between 49 57 c then (toks, LNum NInt)
  else if eqc c "t" then (toks, LLit "rue" TTrue)
  else if eqc c "f" then (toks, LLit "alse" TFalse)
  else if eqc c "n" then (toks, LLit "ull" TNull)
  else (toks, LErr).

Definition push (raw : string) (c : ascii) : string := raw ++ String c "".

Definition lexStep (st : lexState) (c : ascii) : lexState :=
  let (toks, mode) := st in
  match mode with
  | LValue => lexValue toks c
  | LStr raw =>
      if eqc c dquote then
        match unquote raw with
        | Some s => (snoc toks (TString s), LValue)
        | None => (toks, LErr)
        end
      else if eqc c bslash then (toks, LStrEsc (push raw c))
      else if (code c <? 32)%N then (toks, LErr)
      else (toks, LStr (push raw c))
  | LStrEsc raw =>
      if eqc c "u" then (toks, LStrU (push raw c) 4)
      else
        match code c with
        | 98 | 102 | 110 | 114 | 116 | 92 | 47 | 34 => (toks, LStr (push raw c))
        | _ => (toks, LErr)
        end%N
  | LStrU raw k =>
      match hexVal c, k with
      | Some _, 1 => (toks, LStr (push raw c))
      | Some _, S k' => (toks, LStrU (push raw c) k')
      | _, _ => (toks, LErr)
      end
  | LNum n =>
      match numStep n c with
      | Some n' => (toks, LNum n')
      | None => if numAccepting n then lexValue (snoc toks TNumber) c else (toks, LErr)
      end
  | LLit rest t =>
      match rest with
      | String e rest' =>
          if eqc c e then
            match rest' with
            | EmptyString => (snoc toks t, LValue)
            | _ => (toks, LLit rest' t)
            end
          else (toks, LErr)
      | EmptyString => (toks, LErr)
      end
  | LErr => (toks, LErr)
  end.

Fixpoint lexRun (st : lexState) (s : string) : lexState :=
  match s with
  | EmptyString => st
  | String c t => lexRun (lexStep st c) t
  end.

Definition lexEnd (st : lexState) : option (list token) :=
  match st with
  | (toks, LValue) => Some toks
  | (toks, LNum n) => if numAccepting n then Some (snoc toks TNumber) else None
  | _ => None
  end.

Definition tokenize (s : string) : option (list token) :=
  lexEnd (lexRun ([], LValue) s).

(** ** Values *)

Inductive value : Type :=
| VNull
| VBool (b : bool)
| VNumber
| VString (s : string)
| VArray (l : list value)
| VObject (m : list (string * value)).

(** [maxNestingDepth] of the scanner. *)
Definition maxNestingDepth : N := 10000.

Fixpoint parseValue (fuel : nat) (depth : N) (ts : list token)
  : option (value * list token) :=
  match fuel with
  | O => None
  | S f =>
      match ts with
      | TNull :: r => Some (VNull, r)
      | TTrue :: r => Some (VBool true, r)
      | TFalse :: r => Some (VBool false, r)
      | TNumber :: r => Some (VNumber, r)
      | TString s :: r => Some (VString s, r)
      | TLBracket :: r =>
          if (maxNestingDepth <? depth + 1)%N then None
          else match r with
               | TRBracket :: r' => Some (VArray [], r')
               | _ =>
                   match parseElems f (depth + 1)%N r with
                   | Some (vs, r') => Some (VArray vs, r')
                   | None => None
                   end
               end
      | TLBrace :: r =>
          if (maxNestingDepth <? depth + 1)%N then None
          else match r with
               | TRBrace :: r' => Some (VObject [], r')
               | _ =>
                   match parseMembers f (depth + 1)%N r with
                   | Some (ms, r') => Some (VObject ms, r')
                   | None => None
                   end
               end
      | _ => None
      end
  end
with parseElems (fuel : nat) (depth : N) (ts : list token)
  : option (list value * list token) :=
  match fuel with
  | O => None
  | S f =>
      match parseValue f depth ts with
      | Some (v, TComma :: r) =>
          match parseElems f depth r with
          | Some (vs, r') => Some (v :: vs, r')
          | None => None
          end
      | Some (v, TRBracket :: r) => Some ([v], r)
      | _ => None
      end
  end
with parseMembers (fuel : nat) (depth : N) (ts : list token)
  : option (list (string * value) * list token) :=
  match fuel with
  | O => None
  | S f =>
      match ts with
      | TString k :: TColon :: r =>
          match parseValue f depth r with
          | Some (v, TComma :: r') =>
              match parseMembers f depth r' with
              | Some (ms, r'') => Some ((k, v) :: ms, r'')
              | None => None
              end
          | Some (v, TRBrace :: r') => Some ([(k, v)], r')
          | _ => None
          end
      | _ => None
      end
  end.

(** The JSON text [s] as a value, [None] when [s] is not one JSON text.
    Every call of the parser passes a token or follows a call that does, so
    twice the number of tokens is fuel enough. *)
Definition parse (s : string) : option value :=
  match tokenize s with
  | None => None
  | Some ts =>
      match parseValue (2 * List.length ts + 2) 0 ts with
      | Some (v, []) => Some v
      | _ => None
      end
  end.

(** ** Storing an object into a struct *)

Definition upper (c : ascii) : ascii :=
  if between 97 122 c then chr (code c - 32) else c.

(** [foldName]: letters fold to upper case.  Beyond ASCII only U+017F, which
    folds to [S], and U+212A, which folds to [K], fold to an ASCII letter; the
    other runes fold to runes that no field name contains and are left as they
    are. *)
Fixpoint foldName (s : string) : string :=
  match s with
  | EmptyString => ""
  | String c1 (String c2 (String c3 t as t2) as t1) =>
      if eqc c1 (chr 226) && eqc c2 (chr 132) && eqc c3 (chr 170) then String "K" (foldName t)
      else if eqc c1 (chr 197) && eqc c2 (chr 191) then String "S" (foldName t2)
      else String (upper c1) (foldName t1)
  | String c1 (String c2 t2 as t1) =>
      if eqc c1 (chr 197) && eqc c2 (chr 191) then String "S" (foldName t2)
      else String (upper c1) (foldName t1)
  | String c1 t1 => String (upper c1) (foldName t1)
  end.

(** The field a key names: the one whose name is the key, or else the first
    whose name is the key up to case. *)
Definition findField (names : list string) (key : string) : option string :=
  match find (String.eqb key) names with
  | Some n => Some n
  | None => find (fun n => String.eqb (foldName n) (foldName key)) names
  end.

(** Storing a value into a field of type [string] or [bool]: [null] leaves
    the field as it is, a value of another kind is an [UnmarshalTypeError]. *)
Definition storeString (v : value) (old : string) : option string :=
  match v with
  | VString s => Some s
  | VNull => Some old
  | _ => None
  end.

Definition storeBool (v : value) (old : bool) : option bool :=
  match v with
  | VBool b => Some b
  | VNull => Some old
  | _ => None
  end.

Section Struct.
Variable T : Type.
Variable names : list string.
(** [store name v x]: [x] with [v] stored in field [name]. *)
Variable store : string -> value -> T -> option T.

Fixpoint storeMembers (ms : list (string * value)) (x : T) : option T :=
  match ms with
  | [] => Some x
  | (k, v) :: ms' =>
      match findField names k with
      | None => storeMembers ms' x
      | Some n =>
          match store n v x with
          | Some x' => storeMembers ms' x'
          | None => None
          end
      end
  end.

(** [json.Unmarshal(data, &x)] for a struct [x]; [None] is an error. *)
Definition UnmarshalStruct (data : string) (x : T) : option T :=
  match parse data with
  | Some (VObject ms) => storeMembers ms x
  | Some VNull => Some x
  | _ => None
  end.

End Struct.

Definition MarshalBool (b : bool) : string := if b then "true" else "false".

(** The text of an object from its members, each a name and the text of its
    value, in order. *)
Definition member (kv : string * string) : string :=
  String dquote (fst kv ++ String dquote (String ":" (snd kv))).

Definition MarshalObject (ms : list (string * string)) : string :=
  "{" ++ String.concat "," (map member ms) ++ "}".

End json.

(* ================================================================== *)
(** * Package [encoding/base64] *)

Module base64.
Import bytes.

Definition encodeStd : string :=
  "ABCDEFGHIJKLMNOPQRSTUVWXYZabcdefghijklmnopqrstuvwxyz0123456789+/".

Definition digit (n : N) : ascii :=
  match String.get (N.to_nat n) encodeStd with
  | Some c => c
  | None => "="%char
  end.

(** [base64.StdEncoding.EncodeToString], with padding. *)
Fixpoint EncodeToString (s : string) : string :=
  match s with
  | EmptyString => ""
  | String a EmptyString =>
      let x := code a in
      String (digit (x / 4)) (String (digit (x mod 4 * 16)) "==")
  | String a (String b EmptyString) =>
      let x := code a in
      let y := code b in
      String (digit (x / 4))
        (String (digit (x mod 4 * 16 + y / 16))
          (String (digit (y mod 16 * 4)) "="))
  | String a (String b (String c t)) =>
      let x := code a in
      let y := code b in
      let z := code c in
      String (digit (x / 4))
        (String (digit (x mod 4 * 16 + y / 16))
          (String (digit (y mod 16 * 4 + z / 64))
            (String (digit (z mod 64)) (EncodeToString t))))
  end%N.

End base64.

(* ================================================================== *)
(** * Package [constants] *)

Module constants.

Definition GSQL_PATH : string := "/gsqlserver/gsql/".
Definition GSQL_SEPARATOR : string := "__GSQL__".
Definition GSQL_COOKIES : string := "__GSQL__COOKIES__".
Definition COMMAND_ENDPOINT : string := "command".
Definition FILE_ENDPOINT : string := "file".
Definition LOGIN_ENDPOINT : string := "login".

End constants.

(* ================================================================== *)
(** * Package [models]: the cookie artifact *)

Module models.

Record GSQLCookie : Type := mkGSQLCookie {
  ClientCommit : string;
  FromGsqlClient : bool;
  FromGraphStudio : bool;
  GShellTest : bool;
  FromGsqlServer : bool;
  ApplicationGatewayAffinity : string;
  ApplicationGatewayAffinityCORS : string
}.

(** The zero value of the struct. *)
Definition zero : GSQLCookie := mkGSQLCookie "" false false false false "" "".

(** The names of the [json] tags, in the order of the fields. *)
Definition fieldNames : list string :=
  [ "clientCommit"; "fromGsqlClient"; "fromGraphStudio"; "gShellTest";
    "fromGsqlServer"; "ApplicationGatewayAffinity"; "ApplicationGatewayAffinityCORS" ].

(** The members [json.Marshal] writes: the two affinity fields carry
    [omitempty] and are left out when they hold the empty string. *)
Definition members (c : GSQLCookie) : list (string * string) :=
  List.app
    [ ("clientCommit", json.appendString (ClientCommit c));
      ("fromGsqlClient", json.MarshalBool (FromGsqlClient c));
      ("fromGraphStudio", json.MarshalBool (FromGraphStudio c));
      ("gShellTest", json.MarshalBool (GShellTest c));
      ("fromGsqlServer", json.MarshalBool (FromGsqlServer c)) ]
    (List.app
      (if String.eqb (ApplicationGatewayAffinity c) "" then []
       else [ ("ApplicationGatewayAffinity",
               json.appendString (ApplicationGatewayAffinity c)) ])
      (if String.eqb (ApplicationGatewayAffinityCORS c) "" then []
       else [ ("ApplicationGatewayAffinityCORS",
               json.appendString (ApplicationGatewayAffinityCORS c)) ])).

(** [json.Marshal(c)]; it has no error for this struct. *)
Definition Marshal (c : GSQLCookie) : string := json.MarshalObject (members c).

Definition store (name : string) (v : json.value) (c : GSQLCookie)
  : option GSQLCookie :=
  let (cc, fc, fg, gt, fs, a, ac) := c in
  if String.eqb name "clientCommit" then
    option_map (fun x => mkGSQLCookie x fc fg gt fs a ac) (json.storeString v cc)
  else if String.eqb name "fromGsqlClient" then
    option_map (fun x => mkGSQLCookie cc x fg gt fs a ac) (json.storeBool v fc)
  else if String.eqb name "fromGraphStudio" then
    option_map (fun x => mkGSQLCookie cc fc x gt fs a ac) (json.storeBool v fg)
  else if String.eqb name "gShellTest" then
    option_map (fun x => mkGSQLCookie cc fc fg x fs a ac) (json.storeBool v gt)
  else if String.eqb name "fromGsqlServer" then
    option_map (fun x => mkGSQLCookie cc fc fg gt x a ac) (json.storeBool v fs)
  else if String.eqb name "ApplicationGatewayAffinity" then
    option_map (fun x => mkGSQLCookie cc fc fg gt fs x ac) (json.storeString v a)
  else if String.eqb name "ApplicationGatewayAffinityCORS" then
    option_map (fun x => mkGSQLCookie cc fc fg gt fs a x) (json.storeString v ac)
  else Some c.

(** [json.Unmarshal(data, &c)] for [var c GSQLCookie]; [None] is an error. *)
Definition Unmarshal (data : string) : option GSQLCookie :=
  json.UnmarshalStruct GSQLCookie fieldNames store data zero.

End models.

(* ================================================================== *)
(** * Package [server]: the GSQL session *)

Module server.
Import bytes constants models.

(** The version compatibility table.  In the sources it is a Go map
    literal; its entries are listed here in the order of the literal. *)
Definition versionCommits : list (string * string) :=
  [ ("3.6.2", "31716aa98a0d4bd3bd7c5488dfc795a82dfee80d");
    ("3.6.1", "b77b8fc6c2ceadd457571fc0a6ce1fb243e5f31c");
    ("3.6.0", "b77b8fc6c2ceadd457571fc0a6ce1fb243e5f31c");
    ("3.5.3", "7edb256d9750ab4451d27eef605e58e9adcedc7a");
    ("3.5.0", "375e661f96298db4df018037949827e16ee8df60");
    ("3.4.0", "421b0740e4a9f61d6eb0e03a4d2079de625a3ffe");
    ("3.3.0", "90cc0512851acca2be10044878815bc414876f23");
    ("3.2.2", "a31220261f440f61ebf3edfb1a84efba62939177");
    ("3.2.1", "986e09c5d17d303659bed1342506a1c458462e30");
    ("3.2.0", "f451d8a9a66c7ca0d8d4d9046f440f21097cdd03");
    ("3.1.6", "71b39b25e198f690e28113e7f8874dab7b4559ec");
    ("3.1.5", "f91c690f375ecd4d600eb126ca5a920a5c9ad0f4");
    ("3.1.2", "3887cbd1d67b58ba6f88c50a069b679e20743984");
    ("3.1.1", "375a182bc03b0c78b489e18a0d6af222916a48d2");
    ("3.1.0", "e9d3c5d98e7229118309f6d4bbc9446bad7c4c3d");
    ("3.0.5", "a9f902e5c552780589a15ba458adb48984359165");
    ("3.0.0", "c90ec746a7e77ef5b108554be2133dfd1e1ab1b2") ].

(** An order in which [for version, commit := range versionCommits] may
    visit the map: every entry once, in an order the language leaves open. *)
Definition rangeOrder (order : list (string * string)) : Prop :=
  Permutation order versionCommits.

(** The session.  The field [Client] of the sources, the HTTP client, is
    the [transport] below. *)
Record GSQLSession : Type := mkGSQLSession {
  Host : string;
  User : string;
  Password : string;
  Version : string;
  Cookie : GSQLCookie
}.

Definition withCookie (c : GSQLCookie) (s : GSQLSession) : GSQLSession :=
  mkGSQLSession (Host s) (User s) (Password s) (Version s) c.

Definition withVersion (v : string) (s : GSQLSession) : GSQLSession :=
  mkGSQLSession (Host s) (User s) (Password s) v (Cookie s).

(** ** Errors, requests and responses *)

Inductive error : Type :=
| Errorf (msg : string)             (* made by [fmt.Errorf] *)
| NewRequestError (msg : string)    (* returned by [http.NewRequest] *)
| DoError (msg : string)            (* returned by [Client.Do] *)
| ReadError (msg : string)          (* returned by [io.ReadAll] *)
| UnmarshalError.                   (* returned by [json.Unmarshal] *)

(** The text [%v] prints.  The text of an error of [json.Unmarshal] is not
    modelled; no path of the session prints it. *)
Definition errorText (e : error) : string :=
  match e with
  | Errorf m | NewRequestError m | DoError m | ReadError m => m
  | UnmarshalError => ""
  end.

Record Request : Type := mkRequest {
  Method : string;
  URL : string;
  Header : list (string * string);
  ReqBody : string
}.

(** The error of a call of [Read], [io.EOF] or another one. *)
Inductive readError : Type :=
| EOF
| Failed (msg : string).

(** One call of [resp.Body.Read(buffer)]: the [n] bytes read and the error.
    A body is the list of the results of its successive reads; past the end
    of the list a read returns no byte and [io.EOF]. *)
Definition readResult : Type := (string * option readError)%type.

Record Response : Type := mkResponse {
  SetCookie : string;             (* [resp.Header.Get] of [Set-Cookie] *)
  Body : list readResult
}.

Inductive doResult : Type :=
| DoFails (msg : string)
| DoReturns (resp : Response).

(** [io.ReadAll]: the bytes up to [io.EOF], or the error of a failed read. *)
Fixpoint ReadAll (body : list readResult) : string * option string :=
  match body with
  | [] => ("", None)
  | (data, None) :: rest => let (d, e) := ReadAll rest in (data ++ d, e)
  | (data, Some EOF) :: _ => (data, None)
  | (data, Some (Failed m)) :: _ => (data, Some m)
  end.

(** ** State: the session, the requests sent and the terminal *)

Record State : Type := mkState {
  session : GSQLSession;
  sent : list Request;          (* the requests given to [Client.Do], in order *)
  stdout : string               (* what has been printed *)
}.

Inductive result (A : Type) : Type :=
| Ok (a : A)
| Err (e : error).
Arguments Ok {A} a.
Arguments Err {A} e.

Definition M (A : Type) : Type := State -> result A * State.

Definition ret {A : Type} (a : A) : M A := fun st => (Ok a, st).
Definition fail {A : Type} (e : error) : M A := fun st => (Err e, st).

Definition bind {A B : Type} (m : M A) (k : A -> M B) : M B :=
  fun st =>
    match m st with
    | (Ok a, st') => k a st'
    | (Err e, st') => (Err e, st')
    end.

(** [err := m]: the error of [m] as a value, [None] for [nil]. *)
Definition errorOf (m : M unit) : M (option error) :=
  fun st =>
    match m st with
    | (Ok _, st') => (Ok None, st')
    | (Err e, st') => (Ok (Some e), st')
    end.

Declare Scope go_scope.
Delimit Scope go_scope with go.
Notation "'do' x <- m ; k" := (bind m (fun x => k))
  (at level 10, x name, m at level 100, k at level 200) : go_scope.
Notation "m ;; k" := (bind m (fun _ => k))
  (at level 100, k at level 200, right associativity) : go_scope.
Local Open Scope go_scope.

Definition getSession : M GSQLSession := fun st => (Ok (session st), st).

Definition setCookie (c : GSQLCookie) : M unit :=
  fun st => (Ok tt, mkState (withCookie c (session st)) (sent st) (stdout st)).

Definition setVersion (v : string) : M unit :=
  fun st => (Ok tt, mkState (withVersion v (session st)) (sent st) (stdout st)).

(** [fmt.Print] of one string, and [fmt.Println]. *)
Definition Print (x : string) : M unit :=
  fun st => (Ok tt, mkState (session st) (sent st) (stdout st ++ x)).

Definition Println (x : string) : M unit := Print (x ++ String newline "").

(** The struct the login response is decoded into. *)
Record loginResp : Type := mkLoginResp {
  IsClientCompatible : bool;
  Error : bool;
  Message : string;
  WelcomeMessage : string
}.

Definition loginRespNames : list string :=
  [ "isClientCompatible"; "error"; "message"; "welcomeMessage" ].

Definition storeLoginResp (name : string) (v : json.value) (r : loginResp)
  : option loginResp :=
  let (ic, er, ms, wm) := r in
  if String.eqb name "isClientCompatible" then
    option_map (fun x => mkLoginResp x er ms wm) (json.storeBool v ic)
  else if String.eqb name "error" then
    option_map (fun x => mkLoginResp ic x ms wm) (json.storeBool v er)
  else if String.eqb name "message" then
    option_map (fun x => mkLoginResp ic er x wm) (json.storeString v ms)
  else if String.eqb name "welcomeMessage" then
    option_map (fun x => mkLoginResp ic er ms x) (json.storeString v wm)
  else Some r.

Definition UnmarshalLoginResp (body : string) : option loginResp :=
  json.UnmarshalStruct loginResp loginRespNames storeLoginResp body
    (mkLoginResp false false "" "").

(** The progress pattern
    [\[.*?\]\s*([0-9]\d*|0)+%.*\(([1-9]\d*|0)\/([1-9]\d*|0)\)]. *)
Definition progressRegex : regexp.regex :=
  let count :=
    regexp.Alt (regexp.Cat (regexp.Cls (between 49 57)) (regexp.Star regexp.cls_d))
               (regexp.Lit "0") in
  regexp.Seq
    [ regexp.Lit "["; regexp.Star regexp.dot; regexp.Lit "]";
      regexp.Star regexp.cls_s;
      regexp.Plus
        (regexp.Alt (regexp.Cat (regexp.Cls (between 48 57)) (regexp.Star regexp.cls_d))
                    (regexp.Lit "0"));
      regexp.Lit "%"; regexp.Star regexp.dot;
      regexp.Lit "("; count; regexp.Lit "/"; count; regexp.Lit ")" ].

(** The five headers both requests set, in the order of the calls of
    [req.Header.Set]. *)
Definition sessionHeaders (b64Val cookieJSON : string) : list (string * string) :=
  [ ("Content-Language", "en-US");
    ("Authorization", "Basic " ++ b64Val);
    ("Content-Type", "application/x-www-form-urlencoded");
    ("Cookie", cookieJSON);
    ("User-Agent", "Java/1.8.0") ].

Definition b64Credentials (s : GSQLSession) : string :=
  base64.EncodeToString (User s ++ ":" ++ Password s).

(** The seed cookie [login] builds for a commit. *)
Definition seedCookie (commit : string) : GSQLCookie :=
  mkGSQLCookie commit false false true false "" "".

Section Session.

(** The error of [http.NewRequest] for a URL, [None] when it has none. *)
Variable newRequestError : string -> option string.

(** The server behind [Client.Do]: its answer to a request, which may depend
    on the requests sent before. *)
Variable transport : list Request -> Request -> doResult.

Definition NewRequest (method url body : string) : M Request :=
  match newRequestError url with
  | Some m => fail (NewRequestError m)
  | None => ret (mkRequest method url [] body)
  end.

Definition ClientDo (req : Request) : M Response :=
  fun st =>
    let st' := mkState (session st) (List.app (sent st) [req]) (stdout st) in
    match transport (sent st) req with
    | DoFails m => (Err (DoError m), st')
    | DoReturns resp => (Ok resp, st')
    end.

Definition attemptLogin (version : string) : M unit :=
  do s <- getSession;
  let b64Val := b64Credentials s in
  let cookieJSON := Marshal (Cookie s) in
  do req <- NewRequest "POST" (Host s ++ GSQL_PATH ++ LOGIN_ENDPOINT) b64Val;
  let req := mkRequest (Method req) (URL req) (sessionHeaders b64Val cookieJSON)
               (ReqBody req) in
  do resp <- ClientDo req;
  match ReadAll (Body resp) with
  | (_, Some m) => fail (ReadError m)
  | (body, None) =>
      match UnmarshalLoginResp body with
      | None => fail UnmarshalError
      | Some r =>
          if IsClientCompatible r then
            if Error r && negb (String.eqb (User s) "__GSQL__secret")
            then fail (Errorf (Message r))
            else
              (if negb (String.eqb (SetCookie resp) "") then
                 match Unmarshal (SetCookie resp) with
                 | Some updatedCookie => setCookie updatedCookie
                 | None => ret tt
                 end
               else ret tt) ;;
              Println (WelcomeMessage r)
          else fail (Errorf ("client not compatible with version " ++ version))
      end
  end.

(** [login], for the order [order] in which the [range] visits the table. *)
Fixpoint login (order : list (string * string)) : M unit :=
  match order with
  | [] => fail (Errorf "unable to establish compatible connection")
  | (version, commit) :: rest =>
      setCookie (seedCookie commit) ;;
      do err <- errorOf (attemptLogin version);
      match err with
      | None => setVersion version
      | Some _ => login rest
      end
  end.

(** The body of [if n > 0] in the loop of [executeCommand], for the chunk
    [data] just read. *)
Definition handleChunk (data : string) : M unit :=
  if negb (strings.Contains data GSQL_SEPARATOR) then
    if regexp.MatchString progressRegex data then Print data
    else
      Print (strings.TrimSpace data) ;;
      if negb (strings.HasSuffix data (String newline "")) then Println ""
      else ret tt
  else if strings.Contains data GSQL_COOKIES then
    let parts := strings.Split data "__," in
    if Nat.ltb 1 (List.length parts) then
      match Unmarshal (nth 1 parts "") with
      | Some updatedCookie =>
          setCookie
            (mkGSQLCookie (ClientCommit updatedCookie) true false true true
               (ApplicationGatewayAffinity updatedCookie)
               (ApplicationGatewayAffinityCORS updatedCookie))
      | None => ret tt
      end
    else ret tt
  else ret tt.

(** The read loop of [executeCommand]: it ends at the first read that
    returns an error, whichever it is. *)
Fixpoint readLoop (body : list readResult) : M unit :=
  match body with
  | [] => ret tt
  | (data, err) :: rest =>
      (if Nat.ltb 0 (String.length data) then handleChunk data else ret tt) ;;
      match err with
      | Some _ => ret tt
      | None => readLoop rest
      end
  end.

Definition executeCommand (command : string) : M unit :=
  do s <- getSession;
  let b64Val := b64Credentials s in
  let cookieJSON := Marshal (Cookie s) in
  do req <- NewRequest "POST" (Host s ++ GSQL_PATH ++ FILE_ENDPOINT) command;
  let req := mkRequest (Method req) (URL req) (sessionHeaders b64Val cookieJSON)
               (ReqBody req) in
  do resp <- ClientDo req;
  readLoop (Body resp) ;;
  ret tt.

(** How a run of the interactive loop over the lines typed so far stands:
    it has left the loop, or it waits for the next line. *)
Inductive loopStatus : Type :=
| LoopEnded
| LoopReading.

(** [startInteractiveSession] over the results of the successive calls of
    [reader.ReadString]: the text read and the error, if any. *)
Fixpoint startInteractiveSession (input : list (string * option string))
  : M loopStatus :=
  Print "GSQL > " ;;
  match input with
  | [] => ret LoopReading
  | (_, Some e) :: rest =>
      Print ("Error reading input: " ++ e ++ String newline "") ;;
      startInteractiveSession rest
  | (line, None) :: rest =>
      let command := strings.TrimSpace line in
      if String.eqb command "Quit" || String.eqb command "quit"
         || String.eqb command "exit"
      then Println "Goodbye!" ;; ret LoopEnded
      else if String.eqb command "" then startInteractiveSession rest
      else
        do err <- errorOf (executeCommand command);
        match err with
        | Some e =>
            Print ("Error executing command: " ++ errorText e ++ String newline "")
        | None => ret tt
        end ;;
        startInteractiveSession rest
  end.

End Session.

End server.


(* ================================================================== *)
(** * Vocabulary of the statements *)

Import bytes utf8 constants models server.

(** ** Runes *)

Fixpoint allHigh (s : string) : bool :=
  match s with
  | EmptyString => true
  | String c t => negb (code c <? 128)%N && allHigh t
  end.

(** What is known of a rune that [decodeRunes] returns. *)
Definition wfRune (r : rune) : Prop :=
  match r with
  | RByte c => (code c <? 128)%N = true
  | RValid enc =>
      allHigh enc = true /\ enc <> "" /\
      forall r, runeWidth (enc ++ r) = String.length enc
  | RInvalid _ => True
  end.

Definition runeBytes (r : rune) : string :=
  match r with
  | RByte c | RInvalid c => String c ""
  | RValid enc => enc
  end.

(** ** The cookie artifact *)

(** The cookie with its three strings coerced to well-formed UTF-8. *)
Definition coerceCookie (c : GSQLCookie) : GSQLCookie :=
  mkGSQLCookie
    (ToValidUTF8 (ClientCommit c))
    (FromGsqlClient c) (FromGraphStudio c) (GShellTest c) (FromGsqlServer c)
    (ToValidUTF8 (ApplicationGatewayAffinity c))
    (ToValidUTF8 (ApplicationGatewayAffinityCORS c)).

(** The three strings of the cookie are well-formed UTF-8. *)
Definition validCookie (c : GSQLCookie) : Prop :=
  ValidString (ClientCommit c) = true /\
  ValidString (ApplicationGatewayAffinity c) = true /\
  ValidString (ApplicationGatewayAffinityCORS c) = true.

(** The flags [executeCommand] sets on a cookie it has decoded. *)
Definition reassert (c : GSQLCookie) : GSQLCookie :=
  mkGSQLCookie (ClientCommit c) true false true true
    (ApplicationGatewayAffinity c) (ApplicationGatewayAffinityCORS c).

Definition flagsForced (s : GSQLSession) : Prop :=
  FromGsqlClient (Cookie s) = true /\ FromGsqlServer (Cookie s) = true.

(** ** Requests and responses *)

Definition loginURL (s : GSQLSession) : string :=
  Host s ++ GSQL_PATH ++ LOGIN_ENDPOINT.

(** The request [attemptLogin] gives to [Client.Do] for the session [s]. *)
Definition loginRequest (s : GSQLSession) : Request :=
  mkRequest "POST" (loginURL s)
    (sessionHeaders (b64Credentials s) (Marshal (Cookie s))) (b64Credentials s).

Definition commandURL (s : GSQLSession) : string :=
  Host s ++ GSQL_PATH ++ FILE_ENDPOINT.

(** The request [executeCommand] gives to [Client.Do]. *)
Definition commandRequest (s : GSQLSession) (command : string) : Request :=
  mkRequest "POST" (commandURL s)
    (sessionHeaders (b64Credentials s) (Marshal (Cookie s))) command.

(** The request of the attempt for the table entry [vc]. *)
Definition attemptRequest (s : GSQLSession) (vc : string * string) : Request :=
  loginRequest (withCookie (seedCookie (snd vc)) s).

(** The state once [req] has been given to [Client.Do]. *)
Definition afterSend (req : Request) (st : State) : State :=
  mkState (session st) (List.app (sent st) [req]) (stdout st).

(** The state once [text] has been printed. *)
Definition afterPrint (text : string) (st : State) : State :=
  mkState (session st) (sent st) (stdout st ++ text).

(** The body of [resp] is read to its end and decodes to [r]. *)
Definition answers (resp : Response) (r : loginResp) : Prop :=
  exists body, ReadAll (Body resp) = (body, None) /\ UnmarshalLoginResp body = Some r.

(** The session once [attemptLogin] has accepted [resp]. *)
Definition acceptCookie (resp : Response) (s : GSQLSession) : GSQLSession :=
  if String.eqb (SetCookie resp) "" then s
  else match Unmarshal (SetCookie resp) with
       | Some c => withCookie c s
       | None => s
       end.

Definition unableToConnect : error :=
  Errorf "unable to establish compatible connection".

(** The server finds no version compatible, whatever it is asked. *)
Definition rejectsEveryVersion (tr : list Request -> Request -> doResult) : Prop :=
  forall hist req, exists resp r,
    tr hist req = DoReturns resp /\ answers resp r /\ IsClientCompatible r = false.

(** ** Output of the executor *)

(** What [handleChunk] prints for a chunk. *)
Definition chunkText (data : string) : string :=
  if strings.Contains data GSQL_SEPARATOR then ""
  else if regexp.MatchString progressRegex data then data
  else strings.TrimSpace data
       ++ (if strings.HasSuffix data (String newline "") then ""
           else String newline "").

(** What the read loop prints for the bytes of one read, none when the
    read returned no byte. *)
Definition readText (data : string) : string :=
  if Nat.ltb 0 (String.length data) then chunkText data else "".

(** What the read loop prints for a body. *)
Fixpoint displayed (body : list readResult) : string :=
  match body with
  | [] => ""
  | (data, err) :: rest =>
      readText data ++ match err with Some _ => "" | None => displayed rest end
  end.

(** The chunk carries no cookie the session takes: no piece follows the
    delimiter, or the piece that follows does not decode. *)
Definition noCookieIn (data : string) : Prop :=
  match nth_error (strings.Split data "__,") 1 with
  | None => True
  | Some payload => Unmarshal payload = None
  end.

(** ** The interactive loop *)

(** The three words that end the loop. *)
Definition isQuit (command : string) : bool :=
  String.eqb command "Quit" || String.eqb command "quit" || String.eqb command "exit".

Definition lower (c : ascii) : ascii :=
  if between 65 90 c then chr (code c + 32) else c.

(** The string with its ASCII letters in lower case. *)
Definition ToLower (s : string) : string := map_bytes lower s.

Fixpoint allSpaces (s : string) : bool :=
  match s with
  | EmptyString => true
  | String c t => strings.asciiSpace c && allSpaces t
  end.

(** ** Concrete sessions and servers *)

Definition nl : string := String newline "".

Definition noURLError : string -> option string := fun _ => None.

(** The session [RunGSQL] builds from the default flags. *)
Definition freshSession : GSQLSession :=
  mkGSQLSession "http://127.0.0.1:14240" "tigergraph" "tigergraph" "" zero.

Definition freshState : State := mkState freshSession [] "".

Definition incompatibleBody : string :=
  js "{'isClientCompatible':false,'error':false,'message':'Client not compatible'}" ++ nl.

Definition wrongPasswordBody : string :=
  js "{'isClientCompatible':true,'error':true,'message':'Wrong password!'}" ++ nl.

Definition welcomeBody : string :=
  js "{'isClientCompatible':true,'error':false,'message':'Login successful','welcomeMessage':'Welcome to GSQL'}"
  ++ nl.

(** A server that finds every version incompatible. *)
Definition rejectingServer : list Request -> Request -> doResult :=
  fun _ _ => DoReturns (mkResponse "" [(incompatibleBody, None)]).

(** A server that rejects the credentials of the first request it gets and
    accepts the later ones. *)
Definition wrongPasswordFirst : list Request -> Request -> doResult :=
  fun hist _ =>
    match hist with
    | [] => DoReturns (mkResponse "" [(wrongPasswordBody, None)])
    | _ => DoReturns (mkResponse "" [(welcomeBody, None)])
    end.

(** A cookie a server may send, whose flags differ from those of the
    client. *)
Definition serverCookieJSON : string :=
  js "{'clientCommit':'srv','fromGsqlClient':false,'fromGraphStudio':true,'gShellTest':false,'fromGsqlServer':false}".

(** A server that accepts the login and sends [serverCookieJSON] in the
    [Set-Cookie] header. *)
Definition welcomingServer : list Request -> Request -> doResult :=
  fun _ _ => DoReturns (mkResponse serverCookieJSON [(welcomeBody, None)]).

(** A server that answers every request with the body [body]. *)
Definition bodyServer (body : list readResult) : list Request -> Request -> doResult :=
  fun _ _ => DoReturns (mkResponse "" body).

Definition progressThenDone : list readResult :=
  [ ("[==  ] 40% (2/5)" ++ nl, None); ("done" ++ nl, None) ].

Definition brokenStream : list readResult :=
  [ ("partial output", None); ("", Some (Failed "unexpected EOF")) ].

Definition cookieStream : list readResult :=
  [ ("Command output", None);
    ("__GSQL__COOKIES__," ++ serverCookieJSON, None);
    ("bye", Some EOF) ].

Definition garbledCookieStream : list readResult :=
  [ ("__GSQL__COOKIES__,{not json", None); ("__GSQL__COOKIES__", Some EOF) ].

(** A cookie whose commit is the single byte [0xFF], which is not UTF-8. *)
Definition latin1Cookie : GSQLCookie :=
  mkGSQLCookie (of_codes [255]%N) false false true false "" "".

(** ** The claims of the specification that the code does not meet, as the
    specification states them *)

(** C1 as stated: a compatible response with the error flag, for a user
    that is not the internal account, ends [login] with the message of the
    server, and no request follows. *)
Definition credential_rejection_ends_login : Prop :=
  forall nre tr version commit rest st resp r,
    let s1 := withCookie (seedCookie commit) (session st) in
    nre (loginURL s1) = None ->
    tr (sent st) (loginRequest s1) = DoReturns resp ->
    answers resp r ->
    IsClientCompatible r = true ->
    Error r = true ->
    User (session st) <> "__GSQL__secret" ->
    exists st',
      login nre tr ((version, commit) :: rest) st = (Err (Errorf (Message r)), st') /\
      sent st' = List.app (sent st) [loginRequest s1].

(** C2 as stated: against a server that rejects every version the entries
    are tried in the order of the table. *)
Definition attempts_follow_table_order : Prop :=
  forall nre tr order st,
    rangeOrder order ->
    nre (loginURL (session st)) = None ->
    rejectsEveryVersion tr ->
    exists st',
      login nre tr order st = (Err unableToConnect, st') /\
      sent st' = List.app (sent st) (map (attemptRequest (session st)) versionCommits).

(** C7 as stated: a login that accepts no version leaves the version and
    the cookie of the session as they were. *)
Definition failed_login_keeps_cookie : Prop :=
  forall nre tr order st e st',
    rangeOrder order ->
    login nre tr order st = (Err e, st') ->
    Version (session st') = Version (session st) /\
    Cookie (session st') = Cookie (session st).

(** C8 as stated: a line that is [quit] or [exit] in any letter case ends
    the loop, and nothing is sent. *)
Definition quit_in_any_case_ends_loop : Prop :=
  forall nre tr line rest st,
    ToLower (strings.TrimSpace line) = "quit" \/
    ToLower (strings.TrimSpace line) = "exit" ->
    exists st',
      startInteractiveSession nre tr ((line, None) :: rest) st = (Ok LoopEnded, st') /\
      sent st' = sent st.

(** C9 as stated: every cookie is what its JSON text decodes to. *)
Definition every_cookie_round_trips : Prop :=
  forall c : GSQLCookie, Unmarshal (Marshal c) = Some c.

(* ================================================================== *)
(** * More of package [server]: machine configurations and [RunGSQL] *)

(** The struct [models.MachineConfig]. *)
Module machine.

Record MachineConfig : Type := mkMachineConfig {
  Host : string;
  User : string;
  Password : string;
  GSPort : string;
  RestPort : string
}.

End machine.

(** A value of type [interface{}] as [getMachineConfig] inspects it: a
    string, a map from strings to such values, or a value of another type.
    A Go map is modelled by its lookup. *)
Inductive any : Type :=
| AString (s : string)
| AMap (m : string -> option any)
| AOther.

(** [v, ok := m[key].(string)]: the string, when the key is there and holds
    one. *)
Definition stringAt (m : string -> option any) (key : string) : option string :=
  match m key with
  | Some (AString s) => Some s
  | _ => None
  end.

Definition orElse (o : option string) (d : string) : string :=
  match o with
  | Some s => s
  | None => d
  end.

(** [getMachineConfig(alias)], for the map [machines] that
    [viper.GetStringMap] returns for the key [machines]; [None] is [nil]. *)
Definition getMachineConfig (machines : string -> option any) (alias : string)
  : option machine.MachineConfig :=
  match machines alias with
  | Some (AMap machineMap) =>
      Some (machine.mkMachineConfig
              (orElse (stringAt machineMap "host") "")
              (orElse (stringAt machineMap "user") "")
              (orElse (stringAt machineMap "password") "")
              (orElse (stringAt machineMap "gsPort") "")
              (orElse (stringAt machineMap "restPort") ""))
  | _ => None
  end.

Module servercmd.
Local Open Scope go_scope.

(** [session := &GSQLSession{...}]. *)
Definition newSession (s : GSQLSession) : M unit :=
  fun st => (Ok tt, mkState s (sent st) (stdout st)).

(** [RunGSQL], for the values of the flags [alias], [user], [password],
    [host] and [gsPort], the configured machines, the order of the range in
    [login] and the lines typed. *)
Definition RunGSQL
    (newRequestError : string -> option string)
    (transport : list Request -> Request -> doResult)
    (machines : string -> option any)
    (order : list (string * string))
    (input : list (string * option string))
    (alias user password host gsPort : string) : M unit :=
  let resolved :=
    if negb (String.eqb alias "") then
      match getMachineConfig machines alias with
      | Some machineConfig =>
          Some (machine.Host machineConfig, machine.User machineConfig,
                machine.Password machineConfig, machine.GSPort machineConfig)
      | None => None
      end
    else Some (host, user, password, gsPort) in
  match resolved with
  | None =>
      Print ("Alias " ++ alias ++ " not found. Try: tg conf list" ++ String newline "")
  | Some (host, user, password, gsPort) =>
      let fullHost := host ++ ":" ++ gsPort in
      newSession (mkGSQLSession fullHost user password "" zero) ;;
      do err <- errorOf (login newRequestError transport order);
      match err with
      | Some e =>
          Print ("Error logging in to TigerGraph: " ++ errorText e ++ String newline "")
      | None =>
          Print ("Connected to TigerGraph at " ++ fullHost ++ String newline "") ;;
          do _ <- startInteractiveSession newRequestError transport input;
          ret tt
      end
  end.

End servercmd.

(* ================================================================== *)
(** * Package [config]: [maskPassword] *)

Module config.

(** [strings.Repeat(s, count)] for a count that is not negative. *)
Fixpoint Repeat (s : string) (count : nat) : string :=
  match count with
  | O => ""
  | S n => s ++ Repeat s n
  end.

(** [maskPassword]: Go slices a string by bytes. *)
Definition maskPassword (password : string) : string :=
  if String.eqb password "" then ""
  else if Nat.leb (String.length password) 3
  then Repeat "*" (String.length password)
  else take 1 password
       ++ Repeat "*" (String.length password - 2)
       ++ drop (String.length password - 1) password.

End config.

(* ================================================================== *)
(** * Vocabulary of the further statements *)

(** The answer [d] of the server is one [attemptLogin] accepts for the user
    [user]: a response read to its end that decodes, is compatible, and
    carries no error flag unless the user is the internal account. *)
Definition accepted (user : string) (d : doResult) : bool :=
  match d with
  | DoFails _ => false
  | DoReturns resp =>
      match ReadAll (Body resp) with
      | (_, Some _) => false
      | (body, None) =>
          match UnmarshalLoginResp body with
          | None => false
          | Some r =>
              IsClientCompatible r
              && negb (Error r && negb (String.eqb user "__GSQL__secret"))
          end
      end
  end.

(** The value of a header of a request, the empty string when it has none. *)
Fixpoint headerOf (name : string) (h : list (string * string)) : string :=
  match h with
  | [] => ""
  | (k, v) :: h' => if String.eqb k name then v else headerOf name h'
  end.

(** A request of the session [s]: a [POST] to its login or its command
    endpoint, with the credentials of [s] and the fixed headers. *)
Definition sessionRequest (s : GSQLSession) (req : Request) : Prop :=
  Method req = "POST" /\
  (URL req = loginURL s \/ URL req = commandURL s) /\
  headerOf "Authorization" (Header req) = "Basic " ++ b64Credentials s /\
  headerOf "Content-Language" (Header req) = "en-US" /\
  headerOf "Content-Type" (Header req) = "application/x-www-form-urlencoded" /\
  headerOf "User-Agent" (Header req) = "Java/1.8.0" /\
  exists c, headerOf "Cookie" (Header req) = Marshal c.

(** The two sessions have the same host, user and password. *)
Definition sameEndpoint (s1 s2 : GSQLSession) : Prop :=
  Host s1 = Host s2 /\ User s1 = User s2 /\ Password s1 = Password s2.

(** The commands the interactive loop forwards for the lines [input]: the
    trimmed lines read without error that are neither empty nor a word that
    ends the loop, up to the first line that ends it. *)
Fixpoint commandsOf (input : list (string * option string)) : list string :=
  match input with
  | [] => []
  | (_, Some _) :: rest => commandsOf rest
  | (line, None) :: rest =>
      let command := strings.TrimSpace line in
      if isQuit command then []
      else if String.eqb command "" then commandsOf rest
      else command :: commandsOf rest
  end.

(** Some line of [input], read without error, trims to a word that ends
    the loop. *)
Definition hasQuit (input : list (string * option string)) : Prop :=
  exists line, In (line, None) input /\ isQuit (strings.TrimSpace line) = true.

(** Every read of the input failed. *)
Definition allReadErrors (input : list (string * option string)) : Prop :=
  Forall (fun rd => snd rd <> None) input.

(** The number of positions at which [mask] shows the byte of [secret]. *)
Fixpoint shown (secret mask : string) : nat :=
  match secret, mask with
  | String a s, String b m => (if Ascii.eqb a b then 1 else 0) + shown s m
  | _, _ => 0
  end.

(** No byte of the string is the star. *)
Fixpoint starFree (s : string) : bool :=
  match s with
  | EmptyString => true
  | String c t => negb (Ascii.eqb c "*") && starFree t
  end.

(** The state once the interactive loop has run [executeCommand] on
    [command]: an error it returns is printed. *)
Definition afterCommand (nre : string -> option string)
    (tr : list Request -> Request -> doResult) (command : string) (st : State) : State :=
  match executeCommand nre tr command st with
  | (Ok _, st1) => st1
  | (Err e, st1) =>
      afterPrint ("Error executing command: " ++ errorText e ++ String newline "") st1
  end.

(** What the interactive loop prints for reads that all failed: after each
    prompt the error of the read. *)
Fixpoint readErrorsShown (input : list (string * option string)) : string :=
  match input with
  | [] => ""
  | (_, Some e) :: rest =>
      "GSQL > " ++ "Error reading input: " ++ e ++ String newline ""
      ++ readErrorsShown rest
  | (_, None) :: rest => readErrorsShown rest
  end.

(** The session [RunGSQL] builds. *)
Definition newGSQLSession (host gsPort user password : string) : GSQLSession :=
  mkGSQLSession (host ++ ":" ++ gsPort) user password "" zero.

(** The chunk is plain output: the separator does not occur in it. *)
Definition plainChunk (rd : readResult) : Prop :=
  strings.Contains (fst rd) GSQL_SEPARATOR = false.

(** The chunk carries a cookie that decodes to [c]. *)
Definition cookieChunk (data : string) (c : GSQLCookie) : Prop :=
  strings.Contains data GSQL_SEPARATOR = true /\
  strings.Contains data GSQL_COOKIES = true /\
  exists payload,
    nth_error (strings.Split data "__,") 1 = Some payload /\
    Unmarshal payload = Some c.

(** The run from [st] to [st'] has given the client only requests of the
    session [s], and the endpoint of the session is still that of [s]. *)
Definition keepsTo (s : GSQLSession) (st st' : State) : Prop :=
  sameEndpoint (session st') s /\
  exists new, sent st' = List.app (sent st) new /\ Forall (sessionRequest s) new.

(* ================================================================== *)
(** * Facts about byte strings *)

Lemma append_nil_r (s : string) : s ++ "" = s.
Proof. induction s as [|c s IH]; simpl; [reflexivity | now rewrite IH]. Qed.

Lemma append_assoc (a b c : string) : (a ++ b) ++ c = a ++ (b ++ c).
Proof. induction a as [|x a IH]; simpl; [reflexivity | now rewrite IH]. Qed.

Lemma take_drop (n : nat) (s : string) : take n s ++ drop n s = s.
Proof.
  revert s; induction n as [|n IH]; intros [|c t]; simpl; try reflexivity.
  now rewrite IH.
Qed.

Lemma drop_nil (n : nat) : drop n "" = "".
Proof. destruct n; reflexivity. Qed.

Lemma sconcat_app (l1 l2 : list string) :
  String.concat "" (List.app l1 l2) = String.concat "" l1 ++ String.concat "" l2.
Proof.
  induction l1 as [|a l1 IH]; simpl; [reflexivity|].
  destruct l1 as [|b l1]; simpl in *.
  - destruct l2; simpl; [now rewrite !append_nil_r | reflexivity].
  - rewrite IH. now rewrite !append_assoc.
Qed.

Lemma sconcat_cons (a : string) (l : list string) :
  String.concat "" (a :: l) = a ++ String.concat "" l.
Proof. exact (sconcat_app [a] l). Qed.

(** The bytes from [128] on are none of the bytes the scanner treats
    specially. *)
Lemma high_byte (c : ascii) :
  (code c <? 128)%N = false ->
  json.eqc c bslash = false /\ json.eqc c dquote = false /\ (code c <? 32)%N = false.
Proof.
  destruct c as [[] [] [] [] [] [] [] []]; vm_compute; intuition congruence.
Qed.

(* ================================================================== *)
(** * Facts about [unicode/utf8] and [encoding/json] *)

Lemma between_high (lo hi : N) (c : ascii) :
  between lo hi c = true -> (128 <= lo)%N -> (code c <? 128)%N = false.
Proof.
  unfold between. intros H Hlo.
  apply andb_true_iff in H as [H1 _]. apply N.leb_le in H1.
  apply N.ltb_ge. lia.
Qed.

Lemma cont_high (c : ascii) : cont c = true -> (code c <? 128)%N = false.
Proof. intros H. apply (between_high _ _ _ H). lia. Qed.

Lemma runeWidth_enc (c : ascii) (t : string) (w : nat) :
  (code c <? 128)%N = false ->
  runeWidth (String c t) = S w ->
  String.length (take (S w) (String c t)) = S w /\
  allHigh (take (S w) (String c t)) = true /\
  forall r, runeWidth (take (S w) (String c t) ++ r) = S w.
Proof.
  intros Hc. unfold runeWidth. rewrite Hc.
  destruct (between 194 223 c) eqn:E2.
  { destruct t as [|b1 t]; [discriminate|].
    destruct (cont b1) eqn:C1; [|discriminate].
    intros [= <-]. simpl. rewrite Hc, E2, C1, (cont_high _ C1). auto. }
  destruct (between 224 239 c) eqn:E3.
  { destruct t as [|b1 [|b2 t]]; try discriminate.
    match goal with |- (if ?b then _ else _) = _ -> _ => destruct b eqn:C end; [|discriminate].
    intros [= <-]. apply andb_true_iff in C as [C1 C2].
    simpl. rewrite Hc, E2, E3, C1, C2, (cont_high _ C2).
    rewrite (between_high _ _ _ C1) by (destruct (code c =? 224)%N; lia). auto. }
  destruct (between 240 244 c) eqn:E4; [|discriminate].
  destruct t as [|b1 [|b2 [|b3 t]]]; try discriminate.
  match goal with |- (if ?b then _ else _) = _ -> _ => destruct b eqn:C end; [|discriminate].
  intros [= <-]. apply andb_true_iff in C as [C C3]. apply andb_true_iff in C as [C1 C2].
  simpl. rewrite Hc, E2, E3, E4, C1, C2, C3, (cont_high _ C2), (cont_high _ C3).
  rewrite (between_high _ _ _ C1) by (destruct (code c =? 240)%N; lia). auto.
Qed.

#[local] Arguments utf8.runeWidth : simpl never.

Lemma decodeRunes_wf (s : string) :
  forall k, Forall wfRune (decodeRunes_from k s).
Proof.
  induction s as [|c t IH]; intros k; cbn [decodeRunes_from]; [constructor|].
  destruct k as [|k]; [|apply IH].
  destruct (code c <? 128)%N eqn:Hc.
  - constructor; [exact Hc | apply IH].
  - destruct (runeWidth (String c t)) as [|w] eqn:Hw.
    + constructor; [exact I | apply IH].
    + constructor; [|apply IH].
      destruct (runeWidth_enc c t w Hc Hw) as (Hl & Hh & Hr).
      split; [exact Hh|]. split; [simpl; discriminate|].
      intros r. rewrite Hl. apply Hr.
Qed.

Lemma decodeRunes_bytes (s : string) :
  forall k, String.concat "" (map runeBytes (decodeRunes_from k s)) = drop k s.
Proof.
  induction s as [|c t IH]; intros k; simpl.
  - now rewrite drop_nil.
  - destruct k as [|k]; [|apply IH].
    destruct (code c <? 128)%N.
    + rewrite map_cons, sconcat_cons, IH. reflexivity.
    + destruct (runeWidth (String c t)) as [|w].
      * rewrite map_cons, sconcat_cons, IH. reflexivity.
      * rewrite map_cons, sconcat_cons, IH. simpl. now rewrite take_drop.
Qed.

Lemma ToValidUTF8_valid (s : string) :
  ValidString s = true -> ToValidUTF8 s = s.
Proof.
  unfold ValidString, ToValidUTF8. intros H.
  rewrite <- (decodeRunes_bytes s 0) at 2. fold (decodeRunes s).
  f_equal. induction (decodeRunes s) as [|r l IH]; simpl in *; [reflexivity|].
  apply andb_true_iff in H as [Hr Hl]. rewrite (IH Hl).
  destruct r; simpl in *; congruence.
Qed.

(** ** The scanner on an encoded string *)

Lemma lexRun_app (a b : string) :
  forall st, json.lexRun st (a ++ b) = json.lexRun (json.lexRun st a) b.
Proof. induction a as [|c a IH]; intros st; simpl; [reflexivity | apply IH]. Qed.

Lemma lex_high (e : string) :
  forall toks raw, allHigh e = true ->
  json.lexRun (toks, json.LStr raw) e = (toks, json.LStr (raw ++ e)).
Proof.
  induction e as [|c e IH]; intros toks raw H; simpl in *.
  - now rewrite append_nil_r.
  - apply andb_true_iff in H as [Hc He]. apply negb_true_iff in Hc.
    destruct (high_byte c Hc) as (H1 & H2 & H3). rewrite H2, H1, H3.
    rewrite IH by exact He. unfold json.push. now rewrite append_assoc.
Qed.

Lemma lex_escapeRune (r : rune) (toks : list json.token) (raw : string) :
  wfRune r ->
  json.lexRun (toks, json.LStr raw) (json.escapeRune r)
  = (toks, json.LStr (raw ++ json.escapeRune r)).
Proof.
  destruct r as [c|enc|c]; simpl.
  - intros Hc.
    destruct c as [[] [] [] [] [] [] [] []]; try discriminate Hc;
      cbn; unfold json.push; repeat rewrite append_assoc; reflexivity.
  - intros (Hh & _ & _).
    destruct (String.eqb enc json.lineSeparator);
      [cbn; unfold json.push; repeat rewrite append_assoc; reflexivity|].
    destruct (String.eqb enc json.paragraphSeparator);
      [cbn; unfold json.push; repeat rewrite append_assoc; reflexivity|].
    now apply lex_high.
  - intros _. cbn; unfold json.push; repeat rewrite append_assoc; reflexivity.
Qed.

Lemma lex_escape (s : string) (toks : list json.token) (raw : string) :
  json.lexRun (toks, json.LStr raw) (json.escape s)
  = (toks, json.LStr (raw ++ json.escape s)).
Proof.
  unfold json.escape, decodeRunes.
  generalize (decodeRunes_wf s 0). generalize (decodeRunes_from 0 s) as l.
  intros l; revert raw. induction l as [|r l IH]; intros raw H.
  - simpl. now rewrite append_nil_r.
  - inversion H as [|? ? Hr Hl]; subst.
    rewrite map_cons, sconcat_cons, lexRun_app, lex_escapeRune by exact Hr.
    rewrite IH by exact Hl. now rewrite append_assoc.
Qed.

(** ** Decoding an encoded string *)

Lemma prepend_nil (o : option string) : json.prepend "" o = o.
Proof. destruct o; reflexivity. Qed.

Lemma prepend_prepend (a b : string) (o : option string) :
  json.prepend a (json.prepend b o) = json.prepend (a ++ b) o.
Proof. destruct o; simpl; [now rewrite append_assoc | reflexivity]. Qed.

Lemma unquote_keep (e rest : string) :
  json.unquote_from (String.length e) 0 (e ++ rest)
  = json.prepend e (json.unquote_from 0 0 rest).
Proof.
  induction e as [|c e IH]; simpl.
  - destruct rest; simpl; [reflexivity|]. now rewrite prepend_nil.
  - rewrite IH, prepend_prepend. reflexivity.
Qed.

Lemma unquote_escapeRune (r : rune) (rest : string) :
  wfRune r ->
  json.unquote_from 0 0 (json.escapeRune r ++ rest)
  = json.prepend (coerceRune r) (json.unquote_from 0 0 rest).
Proof.
  destruct r as [c|enc|c]; cbn [json.escapeRune coerceRune wfRune].
  - intros Hc.
    destruct c as [[] [] [] [] [] [] [] []]; try discriminate Hc; reflexivity.
  - intros (Hh & Hne & Hw).
    destruct (String.eqb enc json.lineSeparator) eqn:E1;
      [apply String.eqb_eq in E1; subst enc; reflexivity|].
    destruct (String.eqb enc json.paragraphSeparator) eqn:E2;
      [apply String.eqb_eq in E2; subst enc; reflexivity|].
    destruct enc as [|c e]; [congruence|].
    simpl in Hh. apply andb_true_iff in Hh as [Hc _]. apply negb_true_iff in Hc.
    destruct (high_byte c Hc) as (H1 & H2 & H3).
    specialize (Hw rest).
    change (String c e ++ rest) with (String c (e ++ rest)) in *.
    cbn [json.unquote_from]. rewrite H1, H2, H3, Hc, Hw. simpl.
    rewrite unquote_keep, prepend_prepend. reflexivity.
  - intros _. reflexivity.
Qed.

Lemma unquote_escape (s : string) :
  json.unquote (json.escape s) = Some (ToValidUTF8 s).
Proof.
  unfold json.unquote, json.escape, ToValidUTF8, decodeRunes.
  generalize (decodeRunes_wf s 0). generalize (decodeRunes_from 0 s) as l.
  assert (G : forall l rest, Forall wfRune l ->
            json.unquote_from 0 0 (String.concat "" (map json.escapeRune l) ++ rest)
            = json.prepend (String.concat "" (map coerceRune l))
                (json.unquote_from 0 0 rest)).
  { induction l as [|r l IH]; intros rest H.
    - simpl. now rewrite prepend_nil.
    - inversion H as [|? ? Hr Hl]; subst.
      rewrite !map_cons, !sconcat_cons, append_assoc.
      rewrite unquote_escapeRune by exact Hr.
      rewrite IH by exact Hl. now rewrite prepend_prepend. }
  intros l H. specialize (G l "" H). rewrite append_nil_r in G. rewrite G.
  simpl. now rewrite append_nil_r.
Qed.

Lemma lex_appendString (s rest : string) (toks : list json.token) :
  json.lexRun (toks, json.LValue) (json.appendString s ++ rest)
  = json.lexRun (json.snoc toks (json.TString (ToValidUTF8 s)), json.LValue) rest.
Proof.
  unfold json.appendString.
  change (String dquote (json.escape s ++ String dquote "") ++ rest)
    with (String dquote ((json.escape s ++ String dquote "") ++ rest)).
  rewrite append_assoc.
  change (json.lexRun (toks, json.LValue)
            (String dquote (json.escape s ++ String dquote "" ++ rest)))
    with (json.lexRun (toks, json.LStr "") (json.escape s ++ String dquote rest)).
  rewrite lexRun_app, lex_escape.
  cbn [json.lexRun json.lexStep String.append].
  change (json.eqc dquote dquote) with true. cbv iota.
  now rewrite unquote_escape.
Qed.

#[local] Arguments json.appendString : simpl never.
#[local] Arguments utf8.ToValidUTF8 : simpl never.

Ltac lex_marshal :=
  repeat (rewrite ?append_assoc; cbn; rewrite ?lex_appendString).

Lemma Unmarshal_Marshal (c : models.GSQLCookie) :
  models.Unmarshal (models.Marshal c) = Some (coerceCookie c).
Proof.
  destruct c as [cc fc fg gt fs a ac].
  unfold models.Unmarshal, json.UnmarshalStruct, json.parse, json.tokenize,
    models.Marshal, json.MarshalObject, models.members, coerceCookie.
  destruct a as [|a0 a]; destruct ac as [|b0 ac];
  destruct fc, fg, gt, fs; lex_marshal; reflexivity.
Qed.

(* ================================================================== *)
(** * Facts about the session *)


Ltac run_monad :=
  cbv [bind ret fail getSession setCookie setVersion Println Print
       NewRequest ClientDo errorOf].

Lemma attemptLogin_answered nre tr version st resp r :
  nre (loginURL (session st)) = None ->
  tr (sent st) (loginRequest (session st)) = DoReturns resp ->
  answers resp r ->
  attemptLogin nre tr version st =
    let st1 := afterSend (loginRequest (session st)) st in
    if IsClientCompatible r then
      if Error r && negb (String.eqb (User (session st)) "__GSQL__secret")
      then (Err (Errorf (Message r)), st1)
      else (Ok tt,
            mkState (acceptCookie resp (session st)) (sent st1)
              (stdout st ++ WelcomeMessage r ++ String newline ""))
    else (Err (Errorf ("client not compatible with version " ++ version)), st1).
Proof.
  intros Hnre Htr (body & Hread & Hjson).
  unfold attemptLogin, loginRequest, loginURL in *. run_monad.
  rewrite Hnre. run_monad. cbn [Method URL ReqBody]. rewrite Htr, Hread, Hjson.
  run_monad.
  destruct (IsClientCompatible r); [|reflexivity].
  destruct (Error r && negb (String.eqb (User (session st)) "__GSQL__secret"));
    [reflexivity|].
  unfold acceptCookie, afterSend.
  destruct (String.eqb (SetCookie resp) ""); cbn; [reflexivity|].
  destruct (Unmarshal (SetCookie resp)); reflexivity.
Qed.

(** A failed attempt leaves the session and the terminal as they were. *)
Lemma attemptLogin_error nre tr version st e st' :
  attemptLogin nre tr version st = (Err e, st') ->
  session st' = session st /\ stdout st' = stdout st.
Proof.
  unfold attemptLogin. run_monad.
  destruct (nre _); run_monad; [intros [= _ <-]; auto|].
  cbn [Method URL ReqBody].
  destruct (tr _ _) as [m|resp]; [intros [= _ <-]; auto|].
  destruct (ReadAll (Body resp)) as [body [m|]]; [intros [= _ <-]; auto|].
  destruct (UnmarshalLoginResp body) as [r|]; [|intros [= _ <-]; auto].
  destruct (IsClientCompatible r); [|intros [= _ <-]; auto].
  destruct (Error r && _); [intros [= _ <-]; auto|].
  destruct (negb _); [destruct (Unmarshal _)|]; cbn; discriminate.
Qed.

Lemma login_error nre tr order :
  forall st e st',
    login nre tr order st = (Err e, st') ->
    e = unableToConnect /\
    Host (session st') = Host (session st) /\
    User (session st') = User (session st) /\
    Password (session st') = Password (session st) /\
    Version (session st') = Version (session st) /\
    Cookie (session st') =
      fold_left (fun _ vc => seedCookie (snd vc)) order (Cookie (session st)).
Proof.
  induction order as [|[version commit] rest IH]; intros st e st'.
  - cbn. intros [= <- <-]. auto 10.
  - cbn [login]. run_monad. fold (errorOf (attemptLogin nre tr version)).
    unfold errorOf.
    destruct (attemptLogin nre tr version _) as [[u|e1] st1] eqn:Hatt.
    + cbn. discriminate.
    + intros H. apply IH in H. apply attemptLogin_error in Hatt as [Hs _].
      cbn in Hs. rewrite Hs in H. cbn in H. cbn [fold_left snd]. exact H.
Qed.

Lemma login_rejected nre tr order :
  forall st,
    nre (loginURL (session st)) = None ->
    rejectsEveryVersion tr ->
    login nre tr order st =
      (Err unableToConnect,
       mkState
         (fold_left (fun s vc => withCookie (seedCookie (snd vc)) s) order (session st))
         (List.app (sent st) (map (attemptRequest (session st)) order))
         (stdout st)).
Proof.
  induction order as [|[version commit] rest IH]; intros st Hnre Hrej.
  - cbn. rewrite app_nil_r. destruct st; reflexivity.
  - cbn [login]. run_monad. fold (errorOf (attemptLogin nre tr version)).
    unfold errorOf.
    set (st0 := mkState (withCookie (seedCookie commit) (session st)) (sent st) (stdout st)).
    destruct (Hrej (sent st0) (loginRequest (session st0))) as (resp & r & Htr & Hans & Hno).
    rewrite (attemptLogin_answered nre tr version st0 resp r Hnre Htr Hans).
    rewrite Hno. cbv beta iota zeta. rewrite IH by assumption.
    cbn [fold_left map snd session sent stdout afterSend st0].
    f_equal. f_equal.
    rewrite <- app_assoc. reflexivity.
Qed.

(** ** The executor *)

Lemma handleChunk_run (data : string) (st : State) :
  exists st',
    handleChunk data st = (Ok tt, st') /\
    sent st' = sent st /\
    stdout st' = stdout st ++ chunkText data /\
    (session st' = session st \/
     exists c, session st' = withCookie (reassert c) (session st)).
Proof.
  unfold handleChunk, chunkText.
  destruct (strings.Contains data GSQL_SEPARATOR); cbn [negb].
  - destruct (strings.Contains data GSQL_COOKIES);
      [|eexists; split; [reflexivity|]; cbn; rewrite append_nil_r; auto].
    destruct (Nat.ltb 1 _);
      [|eexists; split; [reflexivity|]; cbn; rewrite append_nil_r; auto].
    destruct (Unmarshal _) as [c|];
      [|eexists; split; [reflexivity|]; cbn; rewrite append_nil_r; auto].
    eexists; split; [reflexivity|]. cbn. rewrite append_nil_r.
    repeat split. right. exists c. reflexivity.
  - destruct (regexp.MatchString progressRegex data).
    + eexists; split; [reflexivity|]. cbn. auto.
    + run_monad. destruct (strings.HasSuffix data _); cbn;
        eexists; (split; [reflexivity|]); cbn; rewrite ?append_assoc, ?append_nil_r; auto.
Qed.

(** A chunk with the separator, the cookie marker and a piece after the
    delimiter that decodes replaces the cookie and prints nothing. *)
Lemma handleChunk_cookie (data payload : string) (c : GSQLCookie) (st : State) :
  strings.Contains data GSQL_SEPARATOR = true ->
  strings.Contains data GSQL_COOKIES = true ->
  nth_error (strings.Split data "__,") 1 = Some payload ->
  Unmarshal payload = Some c ->
  handleChunk data st
  = (Ok tt, mkState (withCookie (reassert c) (session st)) (sent st) (stdout st)).
Proof.
  intros Hsep Hck Hnth Hun. unfold handleChunk. rewrite Hsep, Hck. cbn [negb].
  assert (Hlen : Nat.ltb 1 (List.length (strings.Split data "__,")) = true).
  { apply Nat.ltb_lt. apply nth_error_Some. congruence. }
  rewrite Hlen, (nth_error_nth _ _ "" Hnth), Hun. reflexivity.
Qed.

(** A chunk with the separator but no cookie the session takes changes
    nothing at all. *)
Lemma handleChunk_noCookie (data : string) (st : State) :
  strings.Contains data GSQL_SEPARATOR = true ->
  noCookieIn data ->
  handleChunk data st = (Ok tt, st).
Proof.
  intros Hsep Hno. unfold handleChunk, noCookieIn in *. rewrite Hsep. cbn [negb].
  destruct (strings.Contains data GSQL_COOKIES); [|reflexivity].
  destruct (Nat.ltb 1 _) eqn:Hlen; [|reflexivity].
  destruct (nth_error (strings.Split data "__,") 1) as [payload|] eqn:Hnth.
  - rewrite (nth_error_nth _ _ "" Hnth), Hno. reflexivity.
  - apply Nat.ltb_lt in Hlen. apply nth_error_None in Hnth. lia.
Qed.

(** A chunk without the separator leaves the session as it is. *)
Lemma handleChunk_plain (data : string) (st : State) :
  strings.Contains data GSQL_SEPARATOR = false ->
  handleChunk data st
  = (Ok tt, mkState (session st) (sent st) (stdout st ++ chunkText data)).
Proof.
  intros Hsep. unfold handleChunk, chunkText. rewrite Hsep. cbn [negb].
  destruct (regexp.MatchString progressRegex data); [reflexivity|].
  run_monad. destruct (strings.HasSuffix data _); cbn;
    rewrite ?append_assoc, ?append_nil_r; reflexivity.
Qed.

Lemma readStep_run (data : string) (st : State) :
  exists st',
    (if Nat.ltb 0 (String.length data) then handleChunk data else ret tt) st
    = (Ok tt, st') /\
    sent st' = sent st /\
    stdout st' = stdout st ++ readText data /\
    (session st' = session st \/
     exists c, session st' = withCookie (reassert c) (session st)).
Proof.
  unfold readText.
  destruct data as [|a data]; cbn [String.length Nat.ltb Nat.leb].
  - exists st. cbn. rewrite append_nil_r. auto.
  - apply handleChunk_run.
Qed.

Lemma readLoop_run (body : list readResult) :
  forall st, exists st',
    readLoop body st = (Ok tt, st') /\
    sent st' = sent st /\
    stdout st' = stdout st ++ displayed body /\
    Host (session st') = Host (session st) /\
    User (session st') = User (session st) /\
    Password (session st') = Password (session st) /\
    Version (session st') = Version (session st) /\
    (flagsForced (session st) -> flagsForced (session st')).
Proof.
  induction body as [|[data err] rest IH]; intros st.
  - exists st. cbn. rewrite append_nil_r. auto 10.
  - cbn [readLoop displayed]. unfold bind at 1.
    destruct (readStep_run data st) as (st1 & -> & Hsent & Hout & Hsess).
    assert (Hfr : Host (session st1) = Host (session st) /\
                  User (session st1) = User (session st) /\
                  Password (session st1) = Password (session st) /\
                  Version (session st1) = Version (session st) /\
                  (flagsForced (session st) -> flagsForced (session st1))).
    { destruct Hsess as [-> | (c & ->)]; cbn; auto 10.
      repeat split; reflexivity. }
    destruct Hfr as (H1 & H2 & H3 & H4 & H5).
    destruct err as [e|].
    + exists st1. rewrite append_nil_r. cbn. auto 10.
    + destruct (IH st1) as (st2 & -> & Hsent2 & Hout2 & G1 & G2 & G3 & G4 & G5).
      exists st2. rewrite Hout2, Hout, append_assoc.
      split; [reflexivity|]. repeat (split; [congruence|]).
      intros F. apply G5, H5, F.
Qed.

(** Once the loop has met a cookie chunk the forced flags stay. *)
Lemma readLoop_forced (pre post : list readResult) (data payload : string)
      (err : option readError) (c : GSQLCookie) :
  Forall (fun rd => snd rd = None) pre ->
  strings.Contains data GSQL_SEPARATOR = true ->
  strings.Contains data GSQL_COOKIES = true ->
  nth_error (strings.Split data "__,") 1 = Some payload ->
  Unmarshal payload = Some c ->
  forall st, flagsForced (session (snd (readLoop (List.app pre ((data, err) :: post)) st))).
Proof.
  intros Hpre Hsep Hck Hnth Hun.
  induction Hpre as [|[d e] pre He Hpre IH]; intros st.
  - cbn [List.app readLoop]. unfold bind at 1.
    assert (Hn : Nat.ltb 0 (String.length data) = true).
    { destruct data; [discriminate Hsep | reflexivity]. }
    rewrite Hn, (handleChunk_cookie _ _ _ _ Hsep Hck Hnth Hun).
    destruct err as [e|].
    + cbn. split; reflexivity.
    + destruct (readLoop_run post
                  (mkState (withCookie (reassert c) (session st)) (sent st) (stdout st)))
        as (st2 & -> & _ & _ & _ & _ & _ & _ & F).
      apply F. split; reflexivity.
  - cbn in He. subst e. cbn [List.app readLoop]. unfold bind at 1.
    destruct (readStep_run d st) as (st1 & -> & _). apply IH.
Qed.

(** What the loop prints does not depend on a chunk with the separator. *)
Lemma displayed_control (pre post : list readResult) (data : string)
      (err : option readError) :
  strings.Contains data GSQL_SEPARATOR = true ->
  displayed (List.app pre ((data, err) :: post))
  = displayed (List.app pre (("", err) :: post)).
Proof.
  intros Hsep. induction pre as [|[d e] pre IH]; cbn [List.app displayed].
  - unfold readText, chunkText. rewrite Hsep.
    destruct (Nat.ltb 0 (String.length data)); reflexivity.
  - now rewrite IH.
Qed.

Lemma executeCommand_answered nre tr command st resp :
  nre (commandURL (session st)) = None ->
  tr (sent st) (commandRequest (session st) command) = DoReturns resp ->
  executeCommand nre tr command st
  = (Ok tt, snd (readLoop (Body resp) (afterSend (commandRequest (session st) command) st))).
Proof.
  intros Hnre Htr. unfold executeCommand, commandRequest, commandURL in *.
  run_monad. rewrite Hnre. run_monad. cbn [Method URL ReqBody]. rewrite Htr.
  unfold afterSend.
  match goal with |- context [readLoop ?b ?s] =>
    destruct (readLoop_run b s) as (st2 & -> & _) end.
  reflexivity.
Qed.

(* ================================================================== *)
(** * The negotiator *)

Lemma wrongPassword_answers :
  answers (mkResponse "" [(wrongPasswordBody, None)])
    (mkLoginResp true true "Wrong password!" "").
Proof. exists wrongPasswordBody. split; vm_compute; reflexivity. Qed.

Lemma incompatible_answers :
  answers (mkResponse "" [(incompatibleBody, None)])
    (mkLoginResp false false "Client not compatible" "").
Proof. exists incompatibleBody. split; vm_compute; reflexivity. Qed.

Lemma rejectingServer_rejects : rejectsEveryVersion rejectingServer.
Proof.
  intros hist req. eexists. eexists.
  split; [reflexivity|]. split; [exact incompatible_answers | reflexivity].
Qed.

(** C1, counterexample.  The server rejects the credentials of the default
    user on the first request and would accept the next one: [login] does not
    stop with the message of the server, it sends a second request and
    succeeds. *)
Lemma credential_rejection_does_not_end_login : ~ credential_rejection_ends_login.
Proof.
  intros H.
  destruct (H noURLError wrongPasswordFirst "3.6.2"
              "31716aa98a0d4bd3bd7c5488dfc795a82dfee80d"
              (tl versionCommits) freshState
              (mkResponse "" [(wrongPasswordBody, None)])
              (mkLoginResp true true "Wrong password!" "")
              eq_refl eq_refl wrongPassword_answers eq_refl eq_refl)
    as (st' & Hrun & _).
  - vm_compute. discriminate.
  - vm_compute in Hrun. discriminate Hrun.
Qed.

(** C1, amended.  When the response to an attempt is compatible and carries
    the error flag, and the user is not [__GSQL__secret], that attempt fails
    with the message of the server and leaves the session as it was; [login]
    takes it as it takes any failed attempt and goes on with the entries
    that remain, and the one error [login] itself ever returns is
    [unable to establish compatible connection]. *)
Theorem login_goes_on_after_credential_rejection
    nre tr version commit rest st resp r :
  let s1 := withCookie (seedCookie commit) (session st) in
  let st0 := mkState s1 (sent st) (stdout st) in
  let st1 := afterSend (loginRequest s1) st0 in
  nre (loginURL s1) = None ->
  tr (sent st) (loginRequest s1) = DoReturns resp ->
  answers resp r ->
  IsClientCompatible r = true ->
  Error r = true ->
  User (session st) <> "__GSQL__secret" ->
  attemptLogin nre tr version st0 = (Err (Errorf (Message r)), st1) /\
  login nre tr ((version, commit) :: rest) st = login nre tr rest st1 /\
  (forall e st', login nre tr rest st1 = (Err e, st') -> e = unableToConnect).
Proof.
  intros s1 st0 st1 Hnre Htr Hans Hcompat Herr Huser.
  assert (Hatt : attemptLogin nre tr version st0 = (Err (Errorf (Message r)), st1)).
  { rewrite (attemptLogin_answered nre tr version st0 resp r Hnre Htr Hans).
    rewrite Hcompat, Herr. cbn [andb].
    apply String.eqb_neq in Huser. cbn [st0 session User s1 withCookie].
    rewrite Huser. reflexivity. }
  split; [exact Hatt|]. split.
  - cbn [login]. run_monad. fold (errorOf (attemptLogin nre tr version)).
    unfold errorOf. fold s1. fold st0. rewrite Hatt. reflexivity.
  - intros e st' Hlogin. apply (login_error _ _ _ _ _ _ Hlogin).
Qed.

Lemma login_goes_on_after_credential_rejection_witness :
  let s1 := withCookie (seedCookie "31716aa98a0d4bd3bd7c5488dfc795a82dfee80d")
              freshSession in
  let st1 := afterSend (loginRequest s1) (mkState s1 [] "") in
  attemptLogin noURLError wrongPasswordFirst "3.6.2" (mkState s1 [] "")
  = (Err (Errorf "Wrong password!"), st1) /\
  login noURLError wrongPasswordFirst versionCommits freshState
  = login noURLError wrongPasswordFirst (tl versionCommits) st1.
Proof.
  intros s1 st1.
  assert (Hans : answers (mkResponse "" [(wrongPasswordBody, None)])
                   (mkLoginResp true true "Wrong password!" "")).
  { exists wrongPasswordBody. split; vm_compute; reflexivity. }
  assert (Huser : User (session freshState) <> "__GSQL__secret").
  { vm_compute. discriminate. }
  destruct (login_goes_on_after_credential_rejection
              noURLError wrongPasswordFirst "3.6.2"
              "31716aa98a0d4bd3bd7c5488dfc795a82dfee80d" (tl versionCommits)
              freshState (mkResponse "" [(wrongPasswordBody, None)])
              (mkLoginResp true true "Wrong password!" "")
              eq_refl eq_refl Hans eq_refl eq_refl Huser) as (H1 & H2 & _).
  split; [exact H1 | exact H2].
Defined.

(** C2, counterexample.  The range may visit the table from its last entry
    to its first: the first request then carries the commit of 3.0.0, not
    that of 3.6.2. *)
Lemma attempts_need_not_follow_table_order : ~ attempts_follow_table_order.
Proof.
  intros H.
  destruct (H noURLError rejectingServer (List.rev versionCommits) freshState)
    as (st' & Hrun & Hsent).
  - apply Permutation_sym, Permutation_rev.
  - reflexivity.
  - exact rejectingServer_rejects.
  - rewrite (login_rejected noURLError rejectingServer (List.rev versionCommits)
               freshState eq_refl rejectingServer_rejects) in Hrun.
    injection Hrun as <-.
    vm_compute in Hsent. discriminate Hsent.
Qed.

(** C2, amended.  Against a server that rejects every version, [login]
    tries every entry of the table once, in the order in which the range
    visits the map (a permutation of the table that the language leaves
    open), which makes [len(table)], that is 17, attempts, and then fails
    with [unable to establish compatible connection]. *)
Theorem login_tries_every_entry_once nre tr order st :
  rangeOrder order ->
  nre (loginURL (session st)) = None ->
  rejectsEveryVersion tr ->
  exists st',
    login nre tr order st = (Err unableToConnect, st') /\
    sent st' = List.app (sent st) (map (attemptRequest (session st)) order) /\
    Permutation order versionCommits /\
    List.length order = List.length versionCommits /\
    List.length versionCommits = 17.
Proof.
  intros Hord Hnre Hrej. eexists. split.
  - apply (login_rejected nre tr order st Hnre Hrej).
  - cbn [sent]. split; [reflexivity|]. split; [exact Hord|].
    split; [apply Permutation_length, Hord | reflexivity].
Qed.

Lemma login_tries_every_entry_once_witness :
  exists st',
    login noURLError rejectingServer (List.rev versionCommits) freshState
    = (Err unableToConnect, st') /\
    sent st' = List.app (sent freshState)
                 (map (attemptRequest (session freshState)) (List.rev versionCommits)) /\
    Permutation (List.rev versionCommits) versionCommits /\
    List.length (List.rev versionCommits) = List.length versionCommits /\
    List.length versionCommits = 17.
Proof.
  apply (login_tries_every_entry_once noURLError rejectingServer
           (List.rev versionCommits) freshState).
  - apply Permutation_sym, Permutation_rev.
  - reflexivity.
  - intros hist req.
    exists (mkResponse "" [(incompatibleBody, None)]).
    exists (mkLoginResp false false "Client not compatible" "").
    split; [reflexivity|]. split; [|reflexivity].
    exists incompatibleBody. split; vm_compute; reflexivity.
Defined.

(** C7, counterexample.  A fresh session whose login is rejected for every
    version comes back with the seed cookie of the last entry tried, not
    with the cookie it had. *)
Lemma failed_login_overwrites_cookie : ~ failed_login_keeps_cookie.
Proof.
  intros H.
  destruct (H noURLError rejectingServer versionCommits freshState unableToConnect
              (snd (login noURLError rejectingServer versionCommits freshState)))
    as (_ & Hcookie).
  - apply Permutation_refl.
  - rewrite (login_rejected noURLError rejectingServer versionCommits
               freshState eq_refl rejectingServer_rejects). reflexivity.
  - vm_compute in Hcookie. discriminate Hcookie.
Qed.

Lemma fold_left_last_seed (order : list (string * string)) :
  forall (c0 : GSQLCookie) (d : string * string),
    order <> [] ->
    fold_left (fun _ vc => seedCookie (snd vc)) order c0
    = seedCookie (snd (last order d)).
Proof.
  induction order as [|vc rest IH]; intros c0 d Hne; [congruence|].
  destruct rest as [|vc' rest]; [reflexivity|].
  change (fold_left (fun _ vc0 => seedCookie (snd vc0)) (vc' :: rest) (seedCookie (snd vc))
          = seedCookie (snd (last (vc' :: rest) d))).
  apply IH. discriminate.
Qed.

(** C7, amended.  When [login] accepts no version, the host, the user, the
    password and the version of the session are what they were; the cookie is
    not: [login] stores the seed cookie of an entry in the session before it
    tries the entry, so the session comes back with the seed cookie of the
    entry the range visited last. *)
Theorem failed_login_frame nre tr order st e st' :
  rangeOrder order ->
  login nre tr order st = (Err e, st') ->
  Host (session st') = Host (session st) /\
  User (session st') = User (session st) /\
  Password (session st') = Password (session st) /\
  Version (session st') = Version (session st) /\
  In (last order ("", "")) versionCommits /\
  Cookie (session st') = seedCookie (snd (last order ("", ""))).
Proof.
  intros Hord Hrun.
  assert (Hne : order <> []).
  { intros ->. apply Permutation_length in Hord. discriminate Hord. }
  destruct (login_error _ _ _ _ _ _ Hrun) as (_ & H1 & H2 & H3 & H4 & H5).
  repeat (split; [assumption|]). split.
  - apply (Permutation_in _ Hord).
    destruct (exists_last Hne) as (pre & x & ->).
    rewrite last_last. apply in_or_app. right. left. reflexivity.
  - rewrite H5. apply fold_left_last_seed, Hne.
Qed.

Lemma failed_login_frame_witness :
  let st' := snd (login noURLError rejectingServer versionCommits freshState) in
  Host (session st') = Host freshSession /\
  User (session st') = User freshSession /\
  Password (session st') = Password freshSession /\
  Version (session st') = Version freshSession /\
  In (last versionCommits ("", "")) versionCommits /\
  Cookie (session st') = seedCookie (snd (last versionCommits ("", ""))).
Proof.
  intros st'.
  apply (failed_login_frame noURLError rejectingServer versionCommits freshState
           unableToConnect st').
  - apply Permutation_refl.
  - vm_compute. reflexivity.
Defined.

(* ================================================================== *)
(** * The cookie artifact in the negotiator and in the executor *)

(** C3.  The code does not meet the claim: on the [Set-Cookie] header
    [serverCookieJSON] the negotiator stores the cookie with the flags the
    server chose, where the executor, given the same text after the cookie
    marker, stores it with the flags of the client. *)
Lemma negotiator_keeps_server_flags :
  Cookie (session (snd (attemptLogin noURLError welcomingServer "3.6.2" freshState)))
  = mkGSQLCookie "srv" false true false false "" "" /\
  Cookie (session (snd (handleChunk ("__GSQL__COOKIES__," ++ serverCookieJSON)
                          freshState)))
  = mkGSQLCookie "srv" true false true true "" "".
Proof. split; vm_compute; reflexivity. Qed.

(* ================================================================== *)
(** * The executor *)

(** C4.  When the body of the response holds a chunk with the separator and
    the cookie marker, and the piece of the chunk after the delimiter [__,]
    decodes as a cookie, then after [executeCommand] the cookie of the
    session has [fromGsqlClient] and [fromGsqlServer] set, whatever the
    decoded cookie [c] holds, and the terminal shows what it would show had
    the read of that chunk returned no byte. *)
Theorem cookie_chunk_forces_flags
    nre tr command st resp pre post data err payload c :
  nre (commandURL (session st)) = None ->
  tr (sent st) (commandRequest (session st) command) = DoReturns resp ->
  Body resp = List.app pre ((data, err) :: post) ->
  Forall (fun rd => snd rd = None) pre ->
  strings.Contains data GSQL_SEPARATOR = true ->
  strings.Contains data GSQL_COOKIES = true ->
  nth_error (strings.Split data "__,") 1 = Some payload ->
  Unmarshal payload = Some c ->
  exists st',
    executeCommand nre tr command st = (Ok tt, st') /\
    FromGsqlClient (Cookie (session st')) = true /\
    FromGsqlServer (Cookie (session st')) = true /\
    chunkText data = "" /\
    stdout st' = stdout st ++ displayed (List.app pre (("", err) :: post)).
Proof.
  intros Hnre Htr Hbody Hpre Hsep Hck Hnth Hun.
  eexists. split; [apply (executeCommand_answered _ _ _ _ _ Hnre Htr)|].
  rewrite Hbody.
  destruct (readLoop_forced pre post data payload err c Hpre Hsep Hck Hnth Hun
              (afterSend (commandRequest (session st) command) st)) as [F1 F2].
  split; [exact F1|]. split; [exact F2|]. split.
  - unfold chunkText. now rewrite Hsep.
  - destruct (readLoop_run (List.app pre ((data, err) :: post))
                (afterSend (commandRequest (session st) command) st))
      as (st2 & -> & _ & Hout & _).
    cbn [snd]. rewrite Hout. cbn [afterSend stdout].
    f_equal. exact (displayed_control pre post data err Hsep).
Qed.

Lemma cookie_chunk_forces_flags_witness :
  exists st',
    executeCommand noURLError (bodyServer cookieStream) "ls" freshState = (Ok tt, st') /\
    FromGsqlClient (Cookie (session st')) = true /\
    FromGsqlServer (Cookie (session st')) = true /\
    chunkText ("__GSQL__COOKIES__," ++ serverCookieJSON) = "" /\
    stdout st' = stdout freshState
                 ++ displayed [("Command output", None); ("", None); ("bye", Some EOF)].
Proof.
  apply (cookie_chunk_forces_flags noURLError (bodyServer cookieStream) "ls"
           freshState (mkResponse "" cookieStream)
           [("Command output", None)] [("bye", Some EOF)]
           ("__GSQL__COOKIES__," ++ serverCookieJSON) None serverCookieJSON
           (mkGSQLCookie "srv" false true false false "" "")).
  - reflexivity.
  - reflexivity.
  - reflexivity.
  - repeat constructor.
  - vm_compute. reflexivity.
  - vm_compute. reflexivity.
  - vm_compute. reflexivity.
  - vm_compute. reflexivity.
Defined.

(** C5.  The code does not meet the claim for a plain chunk that ends in a
    line feed: the progress chunk is printed as it is, and [done] is printed
    with no line feed after it, [TrimSpace] having removed the one it had and
    [HasSuffix] on the untrimmed chunk having kept [Println] from adding one.
    A plain chunk that does not end in a line feed gets one. *)
Lemma plain_chunk_loses_its_newline :
  stdout (snd (executeCommand noURLError (bodyServer progressThenDone) "ls" freshState))
  = "[==  ] 40% (2/5)" ++ nl ++ "done" /\
  handleChunk ("done" ++ nl) freshState = (Ok tt, mkState freshSession [] "done") /\
  handleChunk "done" freshState = (Ok tt, mkState freshSession [] ("done" ++ nl)).
Proof. repeat split; vm_compute; reflexivity. Qed.

(** C6.  The code does not meet the claim: the second read of
    [brokenStream] fails with an error that is not [io.EOF], the loop stops
    there, and [executeCommand] returns [nil]. *)
Lemma read_error_is_not_reported :
  executeCommand noURLError (bodyServer brokenStream) "ls" freshState
  = (Ok tt,
     mkState freshSession [commandRequest freshSession "ls"] ("partial output" ++ nl)).
Proof. vm_compute. reflexivity. Qed.

(* ================================================================== *)
(** * The interactive loop *)

Lemma trimLeft_allSpaces (wide : list string) (s : string) :
  allSpaces s = true -> strings.trimLeft_from wide 0 s = "".
Proof.
  induction s as [|c t IH]; intros H; [reflexivity|].
  cbn in H. apply andb_true_iff in H as [Hc Ht].
  cbn [strings.trimLeft_from strings.spaceWidth]. rewrite Hc. apply IH, Ht.
Qed.

Lemma TrimSpace_allSpaces (s : string) :
  allSpaces s = true -> strings.TrimSpace s = "".
Proof.
  intros H. unfold strings.TrimSpace. rewrite (trimLeft_allSpaces _ _ H). reflexivity.
Qed.

(** C8, counterexample.  The line [QUIT] is [quit] up to case; the loop
    does not end on it: it sends the command to the server and reads on. *)
Lemma upper_case_quit_is_forwarded : ~ quit_in_any_case_ends_loop.
Proof.
  intros H.
  destruct (H noURLError (bodyServer []) ("QUIT" ++ nl) [] freshState)
    as (st' & Hrun & _).
  - left. vm_compute. reflexivity.
  - vm_compute in Hrun. discriminate Hrun.
Qed.

(** C8, amended.  For a line read without error and trimmed to [command]:
    when [command] is exactly [Quit], [quit] or [exit] the loop prints its
    farewell and ends, and nothing is sent; when [command] is empty, as it is
    for a line of white space only, the loop prompts again and nothing is
    sent; any other [command], [QUIT] and [Exit] among them, is given to
    [executeCommand], an error of which is printed, and the loop reads on. *)
Theorem interactive_loop_line nre tr line rest st :
  let command := strings.TrimSpace line in
  let prompted := afterPrint "GSQL > " st in
  (isQuit command = true ->
   startInteractiveSession nre tr ((line, None) :: rest) st
   = (Ok LoopEnded, afterPrint ("Goodbye!" ++ nl) prompted)) /\
  (command = "" ->
   startInteractiveSession nre tr ((line, None) :: rest) st
   = startInteractiveSession nre tr rest prompted) /\
  (isQuit command = false -> command <> "" ->
   startInteractiveSession nre tr ((line, None) :: rest) st
   = match executeCommand nre tr command prompted with
     | (Ok _, st1) => startInteractiveSession nre tr rest st1
     | (Err e, st1) =>
         startInteractiveSession nre tr rest
           (afterPrint ("Error executing command: " ++ errorText e ++ nl) st1)
     end) /\
  (allSpaces line = true -> command = "").
Proof.
  intros command prompted. unfold isQuit.
  repeat split.
  - intros Hq. cbn [startInteractiveSession]. fold command.
    unfold bind at 1. cbn [Print]. rewrite Hq. reflexivity.
  - intros He. cbn [startInteractiveSession]. fold command.
    unfold bind at 1. cbn [Print]. rewrite He. reflexivity.
  - intros Hq He. cbn [startInteractiveSession]. fold command.
    unfold bind at 1. cbn [Print]. rewrite Hq.
    apply String.eqb_neq in He. rewrite He.
    unfold prompted, afterPrint, bind, errorOf.
    destruct (executeCommand nre tr command _) as [[u|e] st1]; reflexivity.
  - apply TrimSpace_allSpaces.
Qed.

Lemma interactive_loop_line_witness :
  startInteractiveSession noURLError (bodyServer []) [("  exit " ++ nl, None)] freshState
  = (Ok LoopEnded, afterPrint ("Goodbye!" ++ nl) (afterPrint "GSQL > " freshState)) /\
  startInteractiveSession noURLError (bodyServer [])
    [(" " ++ nl, None); ("Quit", None)] freshState
  = startInteractiveSession noURLError (bodyServer []) [("Quit", None)]
      (afterPrint "GSQL > " freshState) /\
  startInteractiveSession noURLError (bodyServer []) [("Exit" ++ nl, None)] freshState
  = (Ok LoopReading,
     mkState freshSession [commandRequest freshSession "Exit"] "GSQL > GSQL > ") /\
  strings.TrimSpace ("  " ++ nl) = "".
Proof.
  split; [|split; [|split]].
  - apply (proj1 (interactive_loop_line noURLError (bodyServer [])
                    ("  exit " ++ nl) [] freshState)).
    vm_compute. reflexivity.
  - apply (proj1 (proj2 (interactive_loop_line noURLError (bodyServer [])
                           (" " ++ nl) [("Quit", None)] freshState))).
    vm_compute. reflexivity.
  - rewrite (proj1 (proj2 (proj2 (interactive_loop_line noURLError (bodyServer [])
                           ("Exit" ++ nl) [] freshState)))).
    + vm_compute. reflexivity.
    + vm_compute. reflexivity.
    + vm_compute. discriminate.
  - apply (proj2 (proj2 (proj2 (interactive_loop_line noURLError (bodyServer [])
                                  ("  " ++ nl) [] freshState)))).
    vm_compute. reflexivity.
Defined.

(* ================================================================== *)
(** * The cookie artifact as JSON *)

(** C9, counterexample.  The commit of [latin1Cookie] is the byte [0xFF]:
    [Marshal] writes it as the escape of U+FFFD, which decodes to the three
    bytes of U+FFFD. *)
Lemma invalid_utf8_does_not_round_trip : ~ every_cookie_round_trips.
Proof.
  intros H. specialize (H latin1Cookie). vm_compute in H. discriminate H.
Qed.

(** C9, amended.  The JSON text of a cookie decodes to the cookie with its
    strings coerced to well-formed UTF-8, hence to the cookie itself, field
    for field, when its three strings are well-formed UTF-8; and an affinity
    field that holds the empty string is not among the members written: with
    both empty the text is that of the five other fields. *)
Theorem cookie_round_trip (c : GSQLCookie) :
  validCookie c ->
  Unmarshal (Marshal c) = Some c /\
  (ApplicationGatewayAffinity c = "" ->
   ~ In "ApplicationGatewayAffinity" (map fst (members c))) /\
  (ApplicationGatewayAffinityCORS c = "" ->
   ~ In "ApplicationGatewayAffinityCORS" (map fst (members c))) /\
  (ApplicationGatewayAffinity c = "" -> ApplicationGatewayAffinityCORS c = "" ->
   Marshal c
   = js "{'clientCommit':" ++ json.appendString (ClientCommit c)
     ++ js ",'fromGsqlClient':" ++ json.MarshalBool (FromGsqlClient c)
     ++ js ",'fromGraphStudio':" ++ json.MarshalBool (FromGraphStudio c)
     ++ js ",'gShellTest':" ++ json.MarshalBool (GShellTest c)
     ++ js ",'fromGsqlServer':" ++ json.MarshalBool (FromGsqlServer c) ++ "}").
Proof.
  intros (V1 & V2 & V3). split; [|split; [|split]].
  - rewrite Unmarshal_Marshal. unfold coerceCookie.
    rewrite !ToValidUTF8_valid by assumption. destruct c; reflexivity.
  - destruct c as [cc fc fg gt fs a ac]. cbn. intros ->.
    destruct ac; cbn; intuition discriminate.
  - destruct c as [cc fc fg gt fs a ac]. cbn. intros ->.
    destruct a; cbn; intuition discriminate.
  - destruct c as [cc fc fg gt fs a ac]. cbn [ApplicationGatewayAffinity
      ApplicationGatewayAffinityCORS ClientCommit FromGsqlClient FromGraphStudio
      GShellTest FromGsqlServer]. intros -> ->.
    unfold Marshal, json.MarshalObject, members.
    cbn. rewrite !append_assoc. cbn. rewrite !append_assoc. cbn.
    rewrite !append_assoc. cbn. rewrite !append_assoc. cbn. reflexivity.
Qed.

Lemma cookie_round_trip_witness :
  let c := seedCookie "31716aa98a0d4bd3bd7c5488dfc795a82dfee80d" in
  Unmarshal (Marshal c) = Some c /\
  ~ In "ApplicationGatewayAffinity" (map fst (members c)) /\
  ~ In "ApplicationGatewayAffinityCORS" (map fst (members c)) /\
  Marshal c
  = js "{'clientCommit':'31716aa98a0d4bd3bd7c5488dfc795a82dfee80d','fromGsqlClient':false,'fromGraphStudio':false,'gShellTest':true,'fromGsqlServer':false}".
Proof.
  intros c.
  assert (V : validCookie c) by (repeat split; vm_compute; reflexivity).
  destruct (cookie_round_trip c V) as (H1 & H2 & H3 & H4).
  split; [exact H1|]. split; [exact (H2 eq_refl)|]. split; [exact (H3 eq_refl)|].
  rewrite (H4 eq_refl eq_refl). vm_compute. reflexivity.
Defined.

(* ================================================================== *)
(** * Cookie payloads that do not decode *)

Lemma attemptLogin_undecodable nre tr version st resp :
  tr (sent st) (loginRequest (session st)) = DoReturns resp ->
  Unmarshal (SetCookie resp) = None ->
  session (snd (attemptLogin nre tr version st)) = session st.
Proof.
  intros Htr Hun.
  destruct (attemptLogin nre tr version st) as [[u|e] st'] eqn:Hrun.
  - revert Hrun. unfold attemptLogin. run_monad.
    destruct (nre _); run_monad; [discriminate|].
    cbn [Method URL ReqBody].
    unfold loginRequest, loginURL in Htr. rewrite Htr.
    destruct (ReadAll (Body resp)) as [body [m|]]; [discriminate|].
    destruct (UnmarshalLoginResp body) as [r|]; [|discriminate].
    destruct (IsClientCompatible r); [|discriminate].
    destruct (Error r && _); [discriminate|].
    rewrite Hun. destruct (negb _); cbn; intros [= _ <-]; reflexivity.
  - apply (attemptLogin_error _ _ _ _ _ _ Hrun).
Qed.

Lemma readLoop_noCookie (body : list readResult) :
  Forall (fun rd => strings.Contains (fst rd) GSQL_SEPARATOR = true ->
                    noCookieIn (fst rd)) body ->
  forall st, session (snd (readLoop body st)) = session st.
Proof.
  induction 1 as [|[data err] rest Hd _ IH]; intros st; [reflexivity|].
  cbn [readLoop]. unfold bind at 1. cbn [fst] in Hd.
  assert (Hstep : exists st1,
             (if Nat.ltb 0 (String.length data) then handleChunk data else ret tt) st
             = (Ok tt, st1) /\ session st1 = session st).
  { destruct (Nat.ltb 0 (String.length data)); [|exists st; split; reflexivity].
    destruct (strings.Contains data GSQL_SEPARATOR) eqn:Hsep.
    - exists st. split; [|reflexivity].
      apply handleChunk_noCookie; [exact Hsep | apply Hd; reflexivity].
    - eexists. split; [apply handleChunk_plain, Hsep | reflexivity]. }
  destruct Hstep as (st1 & -> & Hs).
  destruct err as [e|]; [exact Hs|]. rewrite IH. exact Hs.
Qed.

(** C10.  A cookie payload that does not decode leaves the cookie of the
    session, and the rest of the session, as it was: in [attemptLogin] when
    the [Set-Cookie] header does not decode; in the executor for a chunk with
    the separator when no piece follows the delimiter [__,] or the piece that
    follows does not decode, such a chunk changing nothing at all; and so
    over a whole [executeCommand] whose chunks with the separator are all of
    that kind, after which the next request carries the cookie of before. *)
Theorem undecodable_cookie_is_ignored :
  (forall nre tr version st resp,
     tr (sent st) (loginRequest (session st)) = DoReturns resp ->
     Unmarshal (SetCookie resp) = None ->
     session (snd (attemptLogin nre tr version st)) = session st) /\
  (forall data st,
     strings.Contains data GSQL_SEPARATOR = true ->
     noCookieIn data ->
     handleChunk data st = (Ok tt, st)) /\
  (forall nre tr command st resp,
     nre (commandURL (session st)) = None ->
     tr (sent st) (commandRequest (session st) command) = DoReturns resp ->
     Forall (fun rd => strings.Contains (fst rd) GSQL_SEPARATOR = true ->
                       noCookieIn (fst rd)) (Body resp) ->
     let st' := snd (executeCommand nre tr command st) in
     session st' = session st /\
     forall next, commandRequest (session st') next = commandRequest (session st) next).
Proof.
  split; [exact attemptLogin_undecodable|]. split; [exact handleChunk_noCookie|].
  intros nre tr command st resp Hnre Htr Hall st'.
  assert (Hs : session st' = session st).
  { unfold st'. rewrite (executeCommand_answered _ _ _ _ _ Hnre Htr). cbn [snd].
    rewrite (readLoop_noCookie _ Hall). reflexivity. }
  split; [exact Hs|]. intros next. now rewrite Hs.
Qed.

Lemma undecodable_cookie_is_ignored_witness :
  session (snd (attemptLogin noURLError
                  (fun _ _ => DoReturns (mkResponse "{not json" [(welcomeBody, None)]))
                  "3.6.2" freshState))
  = session freshState /\
  handleChunk "__GSQL__COOKIES__,{not json" freshState = (Ok tt, freshState) /\
  handleChunk "__GSQL__COOKIES__" freshState = (Ok tt, freshState) /\
  session (snd (executeCommand noURLError (bodyServer garbledCookieStream) "ls" freshState))
  = session freshState.
Proof.
  destruct undecodable_cookie_is_ignored as (H1 & H2 & H3).
  split; [|split; [|split]].
  - apply (H1 _ _ _ _ (mkResponse "{not json" [(welcomeBody, None)])).
    + reflexivity.
    + vm_compute. reflexivity.
  - apply H2; vm_compute; reflexivity.
  - apply H2; [vm_compute; reflexivity | vm_compute; exact I].
  - apply (H3 noURLError (bodyServer garbledCookieStream) "ls" freshState
             (mkResponse "" garbledCookieStream)).
    + reflexivity.
    + reflexivity.
    + repeat constructor; intros _; vm_compute; try reflexivity; exact I.
Defined.

(* ================================================================== *)
(** * Further facts about the negotiator *)

Lemma attemptLogin_rejected nre tr version st :
  nre (loginURL (session st)) = None ->
  accepted (User (session st)) (tr (sent st) (loginRequest (session st))) = false ->
  exists e,
    attemptLogin nre tr version st = (Err e, afterSend (loginRequest (session st)) st).
Proof.
  intros Hnre Hacc. unfold attemptLogin, loginRequest, loginURL in *. run_monad.
  rewrite Hnre. run_monad. cbn [Method URL ReqBody].
  unfold accepted in Hacc. unfold afterSend.
  destruct (tr _ _) as [m|resp]; [eexists; reflexivity|].
  destruct (ReadAll (Body resp)) as [body [m|]]; [eexists; reflexivity|].
  destruct (UnmarshalLoginResp body) as [r|]; [|eexists; reflexivity].
  destruct (IsClientCompatible r); [|eexists; reflexivity].
  cbn [andb] in Hacc. apply negb_false_iff in Hacc. rewrite Hacc.
  eexists; reflexivity.
Qed.

(** What an accepted attempt has done. *)
Lemma attemptLogin_accepted nre tr version st u st' :
  attemptLogin nre tr version st = (Ok u, st') ->
  exists resp r,
    tr (sent st) (loginRequest (session st)) = DoReturns resp /\
    answers resp r /\
    IsClientCompatible r = true /\
    st' = mkState (acceptCookie resp (session st))
            (List.app (sent st) [loginRequest (session st)])
            (stdout st ++ WelcomeMessage r ++ String newline "").
Proof.
  unfold attemptLogin, loginRequest, loginURL. run_monad.
  destruct (nre _); run_monad; [discriminate|].
  cbn [Method URL ReqBody].
  destruct (tr _ _) as [m|resp]; [discriminate|].
  destruct (ReadAll (Body resp)) as [body [m|]] eqn:Hread; [discriminate|].
  destruct (UnmarshalLoginResp body) as [r|] eqn:Hjson; [|discriminate].
  destruct (IsClientCompatible r) eqn:Hc; [|discriminate].
  destruct (Error r && _); [discriminate|].
  intros H. exists resp, r. split; [reflexivity|].
  split; [exists body; split; assumption|]. split; [exact Hc|].
  unfold acceptCookie.
  destruct (String.eqb (SetCookie resp) ""); cbn [negb] in H;
    [|destruct (Unmarshal (SetCookie resp))]; cbn in H;
    injection H as _ <-; reflexivity.
Qed.

Lemma acceptCookie_frame resp s :
  Host (acceptCookie resp s) = Host s /\
  User (acceptCookie resp s) = User s /\
  Password (acceptCookie resp s) = Password s /\
  Version (acceptCookie resp s) = Version s.
Proof.
  unfold acceptCookie. destruct (String.eqb _ _); [auto|].
  destruct (Unmarshal _); cbn; auto.
Qed.

(** The unfolding of one turn of the loop of [login]. *)
Lemma login_cons nre tr version commit rest st :
  login nre tr ((version, commit) :: rest) st =
    match attemptLogin nre tr version
            (mkState (withCookie (seedCookie commit) (session st)) (sent st) (stdout st))
    with
    | (Ok _, st1) => (Ok tt, mkState (withVersion version (session st1)) (sent st1) (stdout st1))
    | (Err _, st1) => login nre tr rest st1
    end.
Proof.
  cbn [login]. run_monad. fold (errorOf (attemptLogin nre tr version)). unfold errorOf.
  destruct (attemptLogin nre tr version _) as [[u|e] st1]; reflexivity.
Qed.

(** A login that fails over [pre] has done nothing that a login over more
    entries would not do first. *)
Lemma login_app nre tr pre :
  forall rest st e st1,
    login nre tr pre st = (Err e, st1) ->
    login nre tr (List.app pre rest) st = login nre tr rest st1.
Proof.
  induction pre as [|[version commit] pre IH]; intros rest st e st1 H.
  - cbn in H. injection H as _ <-. reflexivity.
  - cbn [List.app]. rewrite login_cons in *.
    destruct (attemptLogin nre tr version _) as [[u|e1] st0]; [discriminate|].
    apply (IH _ _ _ _ H).
Qed.

Lemma login_nothing_accepted nre tr order :
  forall st,
    nre (loginURL (session st)) = None ->
    (forall hist req, accepted (User (session st)) (tr hist req) = false) ->
    login nre tr order st =
      (Err unableToConnect,
       mkState
         (fold_left (fun s vc => withCookie (seedCookie (snd vc)) s) order (session st))
         (List.app (sent st) (map (attemptRequest (session st)) order))
         (stdout st)).
Proof.
  induction order as [|[version commit] rest IH]; intros st Hnre Hacc.
  - cbn. rewrite app_nil_r. destruct st; reflexivity.
  - rewrite login_cons.
    set (st0 := mkState (withCookie (seedCookie commit) (session st)) (sent st) (stdout st)).
    destruct (attemptLogin_rejected nre tr version st0 Hnre (Hacc _ _)) as (e & ->).
    rewrite IH by assumption.
    cbn [fold_left map snd session sent stdout afterSend st0].
    f_equal. f_equal. rewrite <- app_assoc. reflexivity.
Qed.

(** X1.  Negotiation stops at the first entry that is accepted: when
    [login] over the entries [pre] alone fails, and the attempt for the next
    entry is accepted, [login] succeeds there with the version of that
    entry, whatever entries [post] follow it; none of them is attempted. *)
Theorem login_stops_at_first_accepted
    nre tr pre post version commit st e st1 st2 :
  login nre tr pre st = (Err e, st1) ->
  attemptLogin nre tr version
    (mkState (withCookie (seedCookie commit) (session st1)) (sent st1) (stdout st1))
  = (Ok tt, st2) ->
  login nre tr (List.app pre ((version, commit) :: post)) st
  = (Ok tt, mkState (withVersion version (session st2)) (sent st2) (stdout st2)).
Proof.
  intros Hpre Hatt. rewrite (login_app _ _ _ _ _ _ _ Hpre), login_cons, Hatt.
  reflexivity.
Qed.

Lemma login_stops_at_first_accepted_witness :
  exists st2,
    login noURLError wrongPasswordFirst versionCommits freshState
    = (Ok tt, mkState (withVersion "3.6.1" (session st2)) (sent st2) (stdout st2)) /\
    List.length (sent st2) = 2.
Proof.
  eexists. split.
  - eapply (login_stops_at_first_accepted noURLError wrongPasswordFirst
             [("3.6.2", "31716aa98a0d4bd3bd7c5488dfc795a82dfee80d")]
             (tl (tl versionCommits)) "3.6.1"
             "b77b8fc6c2ceadd457571fc0a6ce1fb243e5f31c" freshState).
    + vm_compute. reflexivity.
    + vm_compute. reflexivity.
  - reflexivity.
Defined.

(** X2.  When the server accepts no attempt, for whichever reason (the
    request fails, the body cannot be read or does not decode, the version
    is incompatible, the credentials are rejected), [login] gives one request
    for each entry to the client, in the order of the range, prints nothing
    and fails with [unable to establish compatible connection]. *)
Theorem login_fails_when_nothing_is_accepted nre tr order st :
  nre (loginURL (session st)) = None ->
  (forall hist req, accepted (User (session st)) (tr hist req) = false) ->
  exists st',
    login nre tr order st = (Err unableToConnect, st') /\
    sent st' = List.app (sent st) (map (attemptRequest (session st)) order) /\
    stdout st' = stdout st.
Proof.
  intros Hnre Hacc. eexists. split; [apply login_nothing_accepted; assumption|].
  split; reflexivity.
Qed.

Lemma login_fails_when_nothing_is_accepted_witness :
  exists st',
    login noURLError (fun _ _ => DoFails "connection refused") versionCommits freshState
    = (Err unableToConnect, st') /\
    sent st' = List.app (sent freshState)
                 (map (attemptRequest (session freshState)) versionCommits) /\
    stdout st' = stdout freshState.
Proof.
  apply (login_fails_when_nothing_is_accepted noURLError
           (fun _ _ => DoFails "connection refused") versionCommits freshState).
  - reflexivity.
  - intros hist req. reflexivity.
Defined.

Lemma attemptLogin_rejected_sent nre tr version st e st' :
  attemptLogin nre tr version st = (Err e, st') ->
  exists new, sent st' = List.app (sent st) new.
Proof.
  unfold attemptLogin. run_monad.
  destruct (nre _); run_monad; [intros [= _ <-]; exists []; now rewrite app_nil_r|].
  cbn [Method URL ReqBody].
  destruct (tr _ _) as [m|resp]; [intros [= _ <-]; eexists; reflexivity|].
  destruct (ReadAll (Body resp)) as [body [m|]]; [intros [= _ <-]; eexists; reflexivity|].
  destruct (UnmarshalLoginResp body) as [r|]; [|intros [= _ <-]; eexists; reflexivity].
  destruct (IsClientCompatible r); [|intros [= _ <-]; eexists; reflexivity].
  destruct (Error r && _); [intros [= _ <-]; eexists; reflexivity|].
  destruct (negb _); [destruct (Unmarshal _)|]; cbn; discriminate.
Qed.

Lemma login_ok nre tr order :
  forall st u st',
    login nre tr order st = (Ok u, st') ->
    exists pre version commit post resp r earlier,
      order = List.app pre ((version, commit) :: post) /\
      answers resp r /\
      session st' = withVersion version
                      (acceptCookie resp (withCookie (seedCookie commit) (session st))) /\
      sent st' = List.app (sent st)
                   (List.app earlier
                      [loginRequest (withCookie (seedCookie commit) (session st))]) /\
      stdout st' = stdout st ++ WelcomeMessage r ++ String newline "".
Proof.
  induction order as [|[version commit] rest IH]; intros st u st' H.
  - cbn in H. discriminate.
  - rewrite login_cons in H.
    destruct (attemptLogin nre tr version _) as [[u1|e1] st1] eqn:Hatt.
    + injection H as _ Hst. subst st'.
      destruct (attemptLogin_accepted _ _ _ _ _ _ Hatt) as (resp & r & _ & Hans & _ & ->).
      exists [], version, commit, rest, resp, r, [].
      cbn. repeat split; try reflexivity. exact Hans.
    + destruct (attemptLogin_error _ _ _ _ _ _ Hatt) as (Hs & Ho).
      destruct (attemptLogin_rejected_sent nre tr version _ _ _ Hatt) as (new & Hsent).
      destruct (IH _ _ _ H) as (pre & v & c & post & resp & r & earlier & -> & Hans & Hs' & Hsent' & Ho').
      exists ((version, commit) :: pre), v, c, post, resp, r, (List.app new earlier).
      split; [reflexivity|]. split; [exact Hans|].
      rewrite Hs in Hs', Hsent'. cbn in Hs', Hsent'.
      split; [exact Hs'|]. split.
      * rewrite Hsent', Hsent. cbn. now rewrite <- !app_assoc.
      * rewrite Ho', Ho. reflexivity.
Qed.

(** X3.  A session that [login] has established holds a version of the
    table, the last request the client gave to the server carried the
    fingerprint the table has for that version, and the host, the user and
    the password are those [login] was called with. *)
Theorem established_session_has_table_version nre tr order st u st' :
  rangeOrder order ->
  login nre tr order st = (Ok u, st') ->
  sameEndpoint (session st') (session st) /\
  exists commit earlier,
    In (Version (session st'), commit) versionCommits /\
    sent st' = List.app (sent st)
                 (List.app earlier
                    [loginRequest (withCookie (seedCookie commit) (session st))]).
Proof.
  intros Hord Hrun.
  destruct (login_ok _ _ _ _ _ _ Hrun)
    as (pre & version & commit & post & resp & r & earlier & -> & _ & Hs & Hsent & _).
  rewrite Hs. split.
  - destruct (acceptCookie_frame resp (withCookie (seedCookie commit) (session st)))
      as (H1 & H2 & H3 & _).
    unfold sameEndpoint. cbn. rewrite H1, H2, H3. cbn. auto.
  - exists commit, earlier. split; [|exact Hsent].
    cbn [Version withVersion]. apply (Permutation_in _ Hord).
    apply in_or_app. right. left. reflexivity.
Qed.

Lemma established_session_has_table_version_witness :
  let st' := snd (login noURLError wrongPasswordFirst versionCommits freshState) in
  sameEndpoint (session st') freshSession /\
  exists commit earlier,
    In (Version (session st'), commit) versionCommits /\
    sent st' = List.app (sent freshState)
                 (List.app earlier
                    [loginRequest (withCookie (seedCookie commit) freshSession)]).
Proof.
  intros st'.
  apply (established_session_has_table_version noURLError wrongPasswordFirst
           versionCommits freshState tt st').
  - apply Permutation_refl.
  - vm_compute. reflexivity.
Defined.

(* ================================================================== *)
(** * Further facts about the executor *)

Lemma prefix_app (b c : string) : prefix b (b ++ c) = true.
Proof.
  induction b as [|x b IH]; [destruct c; reflexivity|].
  cbn [String.append prefix].
  destruct (ascii_dec x x); [exact IH | congruence].
Qed.

Lemma Contains_here (b c : string) : strings.Contains (b ++ c) b = true.
Proof.
  pose proof (prefix_app b c) as H.
  destruct (b ++ c); cbn [strings.Contains]; rewrite H; reflexivity.
Qed.

Lemma Contains_app (a b c : string) : strings.Contains (a ++ b ++ c) b = true.
Proof.
  induction a as [|x a IH].
  - exact (Contains_here b c).
  - cbn [String.append strings.Contains]. rewrite IH. apply orb_true_r.
Qed.

(** X4.  Text that shares a chunk with a control marker is not shown: a
    chunk in which the separator occurs anywhere prints nothing, whatever
    stands before and after the separator. *)
Theorem chunk_with_separator_prints_nothing (before after : string) (st : State) :
  exists st',
    handleChunk (before ++ GSQL_SEPARATOR ++ after) st = (Ok tt, st') /\
    stdout st' = stdout st /\
    sent st' = sent st.
Proof.
  destruct (handleChunk_run (before ++ GSQL_SEPARATOR ++ after) st)
    as (st' & Hrun & Hsent & Hout & _).
  exists st'. split; [exact Hrun|]. split; [|exact Hsent].
  rewrite Hout. unfold chunkText. rewrite Contains_app. apply append_nil_r.
Qed.

Lemma executeCommand_cases nre tr command st :
  let req := commandRequest (session st) command in
  match nre (commandURL (session st)) with
  | Some m => executeCommand nre tr command st = (Err (NewRequestError m), st)
  | None =>
      match tr (sent st) req with
      | DoFails m => executeCommand nre tr command st = (Err (DoError m), afterSend req st)
      | DoReturns resp =>
          executeCommand nre tr command st
          = (Ok tt, snd (readLoop (Body resp) (afterSend req st)))
      end
  end.
Proof.
  intros req. destruct (nre _) as [m|] eqn:Hnre.
  - unfold executeCommand, commandURL in *. run_monad. rewrite Hnre. reflexivity.
  - destruct (tr _ _) as [m|resp] eqn:Htr.
    + unfold executeCommand, req, commandRequest, commandURL in *. run_monad.
      rewrite Hnre. run_monad. cbn [Method URL ReqBody]. rewrite Htr. reflexivity.
    + apply (executeCommand_answered _ _ _ _ _ Hnre Htr).
Qed.

(** X5.  Whatever the server does, [executeCommand] leaves the host, the
    user, the password and the version of the session as they were and gives
    at most one request to the client, the command request of the session;
    it fails when the request cannot be built, and then nothing is sent,
    or when the client fails, and in both cases nothing is printed and the
    cookie is kept; once the client has returned a response it succeeds,
    whatever the body holds. *)
Theorem executeCommand_frame nre tr command st :
  let res := fst (executeCommand nre tr command st) in
  let st' := snd (executeCommand nre tr command st) in
  let req := commandRequest (session st) command in
  sameEndpoint (session st') (session st) /\
  Version (session st') = Version (session st) /\
  (sent st' = sent st \/ sent st' = List.app (sent st) [req]) /\
  (forall m, nre (commandURL (session st)) = Some m ->
     res = Err (NewRequestError m) /\ st' = st) /\
  (forall m, nre (commandURL (session st)) = None ->
     tr (sent st) req = DoFails m ->
     res = Err (DoError m) /\ st' = afterSend req st) /\
  (forall resp, nre (commandURL (session st)) = None ->
     tr (sent st) req = DoReturns resp ->
     res = Ok tt /\ sent st' = List.app (sent st) [req]).
Proof.
  intros res st' req. subst res st'.
  pose proof (executeCommand_cases nre tr command st) as H. cbv zeta in H.
  fold req in H.
  destruct (nre _) as [m|].
  - rewrite H. cbn. unfold sameEndpoint. repeat split; auto; try discriminate.
    all: intros; try congruence.
    all: injection H0 as <-; reflexivity.
  - destruct (tr _ _) as [m|resp].
    + rewrite H. cbn. unfold sameEndpoint. repeat split; auto; try discriminate.
      all: intros; try congruence.
      all: injection H1 as <-; reflexivity.
    + rewrite H. cbn [fst snd].
      destruct (readLoop_run (Body resp) (afterSend req st))
        as (st2 & -> & Hsent & _ & H1 & H2 & H3 & H4 & _).
      cbn [snd]. cbn in Hsent, H1, H2, H3, H4. unfold sameEndpoint.
      repeat split; auto; try discriminate.
Qed.

(* ================================================================== *)
(** * Further facts about the interactive loop *)

(** The unfolding of one turn of the loop. *)
Lemma loop_step nre tr rd rest st :
  startInteractiveSession nre tr (rd :: rest) st =
    let prompted := afterPrint "GSQL > " st in
    match rd with
    | (_, Some e) =>
        startInteractiveSession nre tr rest
          (afterPrint ("Error reading input: " ++ e ++ String newline "") prompted)
    | (line, None) =>
        let command := strings.TrimSpace line in
        if isQuit command
        then (Ok LoopEnded, afterPrint ("Goodbye!" ++ String newline "") prompted)
        else if String.eqb command "" then startInteractiveSession nre tr rest prompted
        else startInteractiveSession nre tr rest (afterCommand nre tr command prompted)
    end.
Proof.
  destruct rd as [line [e|]]; cbn [startInteractiveSession]; unfold bind at 1; cbn [Print].
  - reflexivity.
  - unfold isQuit. cbv zeta.
    destruct (_ || _); [reflexivity|].
    destruct (String.eqb _ ""); [reflexivity|].
    unfold afterCommand, afterPrint, bind, errorOf.
    destruct (executeCommand nre tr _ _) as [[u|e] st1]; reflexivity.
Qed.

Lemma loop_nil nre tr st :
  startInteractiveSession nre tr [] st = (Ok LoopReading, afterPrint "GSQL > " st).
Proof. reflexivity. Qed.

(** What running a command changes. *)
Lemma afterCommand_frame nre tr command st :
  let st' := afterCommand nre tr command st in
  sameEndpoint (session st') (session st) /\
  Version (session st') = Version (session st) /\
  (exists out, stdout st' = stdout st ++ out) /\
  match nre (commandURL (session st)) with
  | Some _ => sent st' = sent st
  | None => sent st' = List.app (sent st) [commandRequest (session st) command]
  end.
Proof.
  unfold afterCommand.
  pose proof (executeCommand_cases nre tr command st) as H. cbv zeta in H.
  destruct (nre _) as [m|].
  - rewrite H. cbn. unfold sameEndpoint. repeat split; auto. eexists; reflexivity.
  - destruct (tr _ _) as [m|resp].
    + rewrite H. cbn. unfold sameEndpoint. repeat split; auto. eexists; reflexivity.
    + rewrite H.
      destruct (readLoop_run (Body resp)
                  (afterSend (commandRequest (session st) command) st))
        as (st2 & -> & Hsent & Hout & H1 & H2 & H3 & H4 & _).
      cbn [snd]. cbn in Hsent, Hout, H1, H2, H3, H4. unfold sameEndpoint.
      repeat split; auto. eexists; exact Hout.
Qed.

Lemma hasQuit_cons rd rest :
  hasQuit (rd :: rest) <->
  (exists line, rd = (line, None) /\ isQuit (strings.TrimSpace line) = true) \/ hasQuit rest.
Proof.
  unfold hasQuit. split.
  - intros (line & [Heq | Hin] & Hq); [left | right]; eauto.
  - intros [(line & -> & Hq) | (line & Hin & Hq)]; exists line; split; cbn; auto.
Qed.

Lemma hasQuit_nil : ~ hasQuit [].
Proof. intros (line & [] & _). Qed.

(** X6.  The interactive loop never fails, and it has left the loop exactly
    when some line read without error trims to [Quit], [quit] or [exit]:
    neither a read that fails, end of input included, nor a command that
    fails ends it.  The host, the user, the password and the version of the
    session are the same afterwards. *)
Theorem interactive_loop_ends_only_on_quit nre tr input :
  forall st, exists status st',
    startInteractiveSession nre tr input st = (Ok status, st') /\
    (status = LoopEnded <-> hasQuit input) /\
    sameEndpoint (session st') (session st) /\
    Version (session st') = Version (session st).
Proof.
  induction input as [|[line [e|]] rest IH]; intros st.
  - exists LoopReading, (afterPrint "GSQL > " st). rewrite loop_nil.
    split; [reflexivity|]. split.
    + split; [discriminate | intros H; destruct (hasQuit_nil H)].
    + unfold sameEndpoint. cbn. auto.
  - rewrite loop_step. cbv zeta.
    destruct (IH (afterPrint ("Error reading input: " ++ e ++ String newline "")
                    (afterPrint "GSQL > " st)))
      as (status & st' & -> & Hiff & Hsame & Hv).
    exists status, st'. split; [reflexivity|]. split; [|split; assumption].
    rewrite hasQuit_cons, Hiff. split; [auto|].
    intros [(l & [=] & _) | H]; exact H.
  - rewrite loop_step. cbv zeta.
    destruct (isQuit (strings.TrimSpace line)) eqn:Hq.
    + eexists _, _. split; [reflexivity|]. split.
      * split; [|reflexivity]. intros _. apply hasQuit_cons. left. eauto.
      * unfold sameEndpoint. cbn. auto.
    + assert (Hcons : forall status, (status = LoopEnded <-> hasQuit rest) ->
                (status = LoopEnded <-> hasQuit ((line, None) :: rest))).
      { intros status Hiff. rewrite hasQuit_cons, Hiff. split; [auto|].
        intros [(l & [= <-] & Hl) | H]; [congruence | exact H]. }
      destruct (String.eqb (strings.TrimSpace line) "").
      * destruct (IH (afterPrint "GSQL > " st)) as (status & st' & -> & Hiff & Hsame & Hv).
        exists status, st'. split; [reflexivity|]. split; [auto|]. split; assumption.
      * destruct (afterCommand_frame nre tr (strings.TrimSpace line) (afterPrint "GSQL > " st))
          as ((H1 & H2 & H3) & H4 & _).
        destruct (IH (afterCommand nre tr (strings.TrimSpace line) (afterPrint "GSQL > " st)))
          as (status & st' & -> & Hiff & (G1 & G2 & G3) & Hv).
        exists status, st'. split; [reflexivity|]. split; [auto|].
        cbn in H1, H2, H3, H4. unfold sameEndpoint.
        rewrite G1, G2, G3, Hv, H1, H2, H3, H4. auto.
Qed.

(** X7.  Nothing that follows the line that ends the loop is read: the run
    over lines the last of which trims to [Quit], [quit] or [exit] is the run
    over those lines with any further ones, and it leaves the loop. *)
Theorem nothing_is_read_after_quit nre tr pre line post :
  isQuit (strings.TrimSpace line) = true ->
  forall st,
    startInteractiveSession nre tr (List.app pre ((line, None) :: post)) st
    = startInteractiveSession nre tr (List.app pre [(line, None)]) st /\
    fst (startInteractiveSession nre tr (List.app pre [(line, None)]) st) = Ok LoopEnded.
Proof.
  intros Hq. induction pre as [|[l [e|]] pre IH]; intros st; cbn [List.app].
  - rewrite !loop_step. cbv zeta. rewrite Hq. split; reflexivity.
  - rewrite !loop_step. cbv zeta. apply IH.
  - rewrite !loop_step. cbv zeta.
    destruct (isQuit (strings.TrimSpace l)); [split; reflexivity|].
    destruct (String.eqb _ ""); apply IH.
Qed.

Lemma nothing_is_read_after_quit_witness :
  startInteractiveSession noURLError (bodyServer [])
    [("ls" ++ nl, None); ("quit" ++ nl, None); ("drop all" ++ nl, None)] freshState
  = startInteractiveSession noURLError (bodyServer [])
      [("ls" ++ nl, None); ("quit" ++ nl, None)] freshState /\
  fst (startInteractiveSession noURLError (bodyServer [])
         [("ls" ++ nl, None); ("quit" ++ nl, None)] freshState) = Ok LoopEnded.
Proof.
  apply (nothing_is_read_after_quit noURLError (bodyServer [])
           [("ls" ++ nl, None)] ("quit" ++ nl) [("drop all" ++ nl, None)]).
  vm_compute. reflexivity.
Defined.

(** X8.  When requests to the command endpoint can be built, the loop
    gives the client one request for each command of the input, in order:
    the bodies of the requests are the trimmed lines that are neither empty
    nor a word that ends the loop, up to the first such word; lines whose read
    failed send nothing.  Each request is a [POST] to the command endpoint of
    the session. *)
Theorem loop_forwards_each_command_once nre tr input :
  forall st,
    nre (commandURL (session st)) = None ->
    exists new,
      sent (snd (startInteractiveSession nre tr input st)) = List.app (sent st) new /\
      map ReqBody new = commandsOf input /\
      Forall (fun req => Method req = "POST" /\ URL req = commandURL (session st)) new.
Proof.
  induction input as [|[line [e|]] rest IH]; intros st Hnre.
  - exists []. rewrite loop_nil. cbn. rewrite app_nil_r. auto.
  - rewrite loop_step. cbv zeta. cbn [commandsOf].
    destruct (IH (afterPrint ("Error reading input: " ++ e ++ String newline "")
                    (afterPrint "GSQL > " st)) Hnre) as (new & Hs & Hb & Hf).
    exists new. auto.
  - rewrite loop_step. cbv zeta. cbn [commandsOf].
    destruct (isQuit (strings.TrimSpace line)).
    + exists []. cbn. rewrite app_nil_r. auto.
    + destruct (String.eqb (strings.TrimSpace line) "").
      * destruct (IH (afterPrint "GSQL > " st) Hnre) as (new & Hs & Hb & Hf).
        exists new. auto.
      * pose proof (afterCommand_frame nre tr (strings.TrimSpace line)
                      (afterPrint "GSQL > " st)) as Hfr.
        cbv zeta in Hfr. cbn [session afterPrint] in Hfr. rewrite Hnre in Hfr.
        destruct Hfr as ((H1 & _) & _ & _ & Hsent).
        set (st1 := afterCommand nre tr (strings.TrimSpace line) (afterPrint "GSQL > " st)) in *.
        assert (Hurl : commandURL (session st1) = commandURL (session st)).
        { unfold commandURL. rewrite H1. reflexivity. }
        destruct (IH st1) as (new & Hs & Hb & Hf); [rewrite Hurl; exact Hnre|].
        exists (commandRequest (session st) (strings.TrimSpace line) :: new).
        split; [|split].
        -- rewrite Hs, Hsent. cbn [sent afterPrint]. rewrite <- app_assoc. reflexivity.
        -- cbn [map]. rewrite Hb. reflexivity.
        -- constructor; [split; reflexivity|].
           rewrite Hurl in Hf. exact Hf.
Qed.

Lemma loop_forwards_each_command_once_witness :
  exists new,
    sent (snd (startInteractiveSession noURLError (bodyServer [])
                 [("ls" ++ nl, None); ("", Some "EOF"); (" " ++ nl, None);
                  ("QUIT" ++ nl, None); ("exit", None); ("ls" ++ nl, None)] freshState))
    = List.app (sent freshState) new /\
    map ReqBody new = ["ls"; "QUIT"] /\
    Forall (fun req => Method req = "POST" /\ URL req = commandURL (session freshState)) new.
Proof.
  apply (loop_forwards_each_command_once noURLError (bodyServer [])
           [("ls" ++ nl, None); ("", Some "EOF"); (" " ++ nl, None);
            ("QUIT" ++ nl, None); ("exit", None); ("ls" ++ nl, None)] freshState).
  reflexivity.
Defined.

(** X9.  Input that cannot be read never ends the session: when every
    read fails, as every read does once standard input is at its end, the
    loop prints the error after each prompt and prompts again; nothing is
    sent, the session is unchanged, and the loop is still reading. *)
Theorem read_errors_keep_the_loop_reading nre tr input :
  allReadErrors input ->
  forall st,
    startInteractiveSession nre tr input st
    = (Ok LoopReading,
       mkState (session st) (sent st) (stdout st ++ readErrorsShown input ++ "GSQL > ")).
Proof.
  induction 1 as [|[line [e|]] rest He Hrest IH]; intros st.
  - reflexivity.
  - rewrite loop_step. cbv zeta. rewrite IH. cbn [readErrorsShown afterPrint session sent stdout].
    rewrite !append_assoc. reflexivity.
  - cbn in He. congruence.
Qed.

Lemma read_errors_keep_the_loop_reading_witness :
  startInteractiveSession noURLError (bodyServer []) [("", Some "EOF"); ("", Some "EOF")]
    freshState
  = (Ok LoopReading,
     mkState freshSession []
       ("GSQL > Error reading input: EOF" ++ nl ++ "GSQL > Error reading input: EOF" ++ nl
        ++ "GSQL > ")).
Proof.
  apply (read_errors_keep_the_loop_reading noURLError (bodyServer [])
           [("", Some "EOF"); ("", Some "EOF")]).
  repeat constructor; discriminate.
Defined.

(* ================================================================== *)
(** * The cookie from one command to the next *)

Lemma readLoop_plain (body : list readResult) :
  Forall plainChunk body ->
  forall st, session (snd (readLoop body st)) = session st.
Proof.
  induction 1 as [|[data err] rest Hp Hrest IH]; intros st; [reflexivity|].
  cbn [readLoop]. unfold bind at 1. unfold plainChunk in Hp. cbn [fst] in Hp.
  destruct (Nat.ltb 0 (String.length data)).
  - rewrite (handleChunk_plain _ _ Hp).
    destruct err; [reflexivity|]. rewrite IH. reflexivity.
  - cbn [ret]. destruct err; [reflexivity|]. rewrite IH. reflexivity.
Qed.

Lemma readLoop_cookie (pre post : list readResult) (data : string)
      (err : option readError) (c : GSQLCookie) :
  Forall (fun rd => snd rd = None) pre ->
  cookieChunk data c ->
  Forall plainChunk post ->
  forall st,
    Cookie (session (snd (readLoop (List.app pre ((data, err) :: post)) st))) = reassert c.
Proof.
  intros Hpre (Hsep & Hck & payload & Hnth & Hun) Hpost.
  induction Hpre as [|[d e] pre He Hpre IH]; intros st.
  - cbn [List.app readLoop]. unfold bind at 1.
    assert (Hn : Nat.ltb 0 (String.length data) = true).
    { destruct data; [discriminate Hsep | reflexivity]. }
    rewrite Hn, (handleChunk_cookie _ _ _ _ Hsep Hck Hnth Hun).
    destruct err as [e|]; [reflexivity|].
    rewrite (readLoop_plain _ Hpost). reflexivity.
  - cbn in He. subst e. cbn [List.app readLoop]. unfold bind at 1.
    destruct (readStep_run d st) as (st1 & -> & _). apply IH.
Qed.

Lemma headerOf_sessionHeaders b64Val cookieJSON :
  headerOf "Authorization" (sessionHeaders b64Val cookieJSON) = "Basic " ++ b64Val /\
  headerOf "Content-Language" (sessionHeaders b64Val cookieJSON) = "en-US" /\
  headerOf "Content-Type" (sessionHeaders b64Val cookieJSON)
  = "application/x-www-form-urlencoded" /\
  headerOf "User-Agent" (sessionHeaders b64Val cookieJSON) = "Java/1.8.0" /\
  headerOf "Cookie" (sessionHeaders b64Val cookieJSON) = cookieJSON.
Proof. repeat split; reflexivity. Qed.

(** X10.  The cookie a command receives is the cookie of the next command:
    when the response of a command carries, in a chunk read after chunks
    without error and followed by plain output only, a cookie that decodes to
    [c], the session holds [c] with its flags reasserted, and the request of
    the next command carries its JSON in the [Cookie] header. *)
Theorem received_cookie_is_sent_with_next_command
    nre tr first next st resp pre data err post c :
  nre (commandURL (session st)) = None ->
  tr (sent st) (commandRequest (session st) first) = DoReturns resp ->
  Body resp = List.app pre ((data, err) :: post) ->
  Forall (fun rd => snd rd = None) pre ->
  cookieChunk data c ->
  Forall plainChunk post ->
  let st1 := snd (executeCommand nre tr first st) in
  let st2 := snd (executeCommand nre tr next st1) in
  Cookie (session st1) = reassert c /\
  exists req,
    sent st2 = List.app (sent st) [commandRequest (session st) first; req] /\
    ReqBody req = next /\
    URL req = commandURL (session st) /\
    headerOf "Cookie" (Header req) = Marshal (reassert c).
Proof.
  intros Hnre Htr Hbody Hpre Hck Hpost st1 st2.
  assert (H1 : st1 = snd (readLoop (Body resp)
                            (afterSend (commandRequest (session st) first) st))).
  { unfold st1. rewrite (executeCommand_answered _ _ _ _ _ Hnre Htr). reflexivity. }
  assert (Hc : Cookie (session st1) = reassert c).
  { rewrite H1, Hbody. apply readLoop_cookie; assumption. }
  split; [exact Hc|].
  destruct (readLoop_run (Body resp) (afterSend (commandRequest (session st) first) st))
    as (st1' & Hrun & Hsent & _ & Hh & _).
  rewrite Hrun in H1. cbn [snd] in H1. subst st1'.
  cbn in Hsent, Hh.
  assert (Hurl : commandURL (session st1) = commandURL (session st)).
  { unfold commandURL. rewrite Hh. reflexivity. }
  exists (commandRequest (session st1) next).
  split; [|split; [reflexivity|split; [exact Hurl|]]].
  - unfold st2.
    pose proof (executeCommand_cases nre tr next st1) as H. cbv zeta in H.
    rewrite Hurl, Hnre in H.
    destruct (tr (sent st1) _) as [m|resp2].
    + rewrite H. cbn. rewrite Hsent, <- app_assoc. reflexivity.
    + rewrite H.
      destruct (readLoop_run (Body resp2) (afterSend (commandRequest (session st1) next) st1))
        as (st3 & -> & Hsent3 & _).
      cbn [snd]. rewrite Hsent3. cbn. rewrite Hsent, <- app_assoc. reflexivity.
  - cbn [commandRequest Header].
    destruct (headerOf_sessionHeaders (b64Credentials (session st1))
                (Marshal (Cookie (session st1)))) as (_ & _ & _ & _ & ->).
    rewrite Hc. reflexivity.
Qed.

Lemma received_cookie_is_sent_with_next_command_witness :
  let c := mkGSQLCookie "srv" false true false false "" "" in
  let st1 := snd (executeCommand noURLError (bodyServer cookieStream) "ls" freshState) in
  let st2 := snd (executeCommand noURLError (bodyServer cookieStream) "show user" st1) in
  Cookie (session st1) = reassert c /\
  exists req,
    sent st2 = List.app (sent freshState) [commandRequest freshSession "ls"; req] /\
    ReqBody req = "show user" /\
    URL req = commandURL freshSession /\
    headerOf "Cookie" (Header req) = Marshal (reassert c).
Proof.
  intros c.
  apply (received_cookie_is_sent_with_next_command noURLError (bodyServer cookieStream)
           "ls" "show user" freshState (mkResponse "" cookieStream)
           [("Command output", None)] ("__GSQL__COOKIES__," ++ serverCookieJSON) None
           [("bye", Some EOF)] c).
  - reflexivity.
  - reflexivity.
  - reflexivity.
  - repeat constructor.
  - split; [vm_compute; reflexivity|]. split; [vm_compute; reflexivity|].
    exists serverCookieJSON. split; vm_compute; reflexivity.
  - repeat constructor.
Defined.

(* ================================================================== *)
(** * The requests of a session *)








Lemma keepsTo_print s text st st' :
  keepsTo s st st' -> keepsTo s st (afterPrint text st').
Proof. intros H. exact H. Qed.






(* ================================================================== *)
(** * [RunGSQL] *)

Lemma loop_returns nre tr input :
  forall st, exists status st',
    startInteractiveSession nre tr input st = (Ok status, st').
Proof.
  induction input as [|[line [e|]] rest IH]; intros st.
  - eexists _, _. apply loop_nil.
  - rewrite loop_step. cbv zeta. apply IH.
  - rewrite loop_step. cbv zeta.
    destruct (isQuit _); [eexists _, _; reflexivity|].
    destruct (String.eqb _ ""); apply IH.
Qed.

(** [RunGSQL] without an alias: the session of the flags, [login], the
    report of its error or the interactive loop. *)
Lemma RunGSQL_flags nre tr machines order input user password host gsPort st :
  servercmd.RunGSQL nre tr machines order input "" user password host gsPort st =
    match login nre tr order
            (mkState (newGSQLSession host gsPort user password) (sent st) (stdout st))
    with
    | (Err e, st1) =>
        (Ok tt, afterPrint ("Error logging in to TigerGraph: " ++ errorText e
                            ++ String newline "") st1)
    | (Ok _, st1) =>
        (Ok tt,
         snd (startInteractiveSession nre tr input
                (afterPrint ("Connected to TigerGraph at " ++ (host ++ ":" ++ gsPort)
                             ++ String newline "") st1)))
    end.
Proof.
  unfold servercmd.RunGSQL. cbn [String.eqb negb].
  unfold servercmd.newSession, newGSQLSession.
  unfold bind at 1. unfold bind at 1. unfold errorOf.
  destruct (login nre tr order _) as [[u|e] st1]; [|reflexivity].
  unfold bind at 1. cbn [Print]. unfold bind, ret, afterPrint.
  match goal with |- context [startInteractiveSession nre tr input ?s] =>
    destruct (loop_returns nre tr input s) as (status & st' & ->) end.
  reflexivity.
Qed.

(** X11.  With an alias, the connection flags play no part: [RunGSQL]
    for an alias whose stored machine is a map runs as it does without alias
    for the host, user, password and port stored under the keys [host],
    [user], [password] and [gsPort], where a key that is missing or holds
    something other than a string counts as the empty string, not as the
    value of the flag. *)
Theorem alias_replaces_the_flags
    nre tr machines order input alias user password host gsPort m st :
  alias <> "" ->
  machines alias = Some (AMap m) ->
  servercmd.RunGSQL nre tr machines order input alias user password host gsPort st
  = servercmd.RunGSQL nre tr machines order input ""
      (orElse (stringAt m "user") "") (orElse (stringAt m "password") "")
      (orElse (stringAt m "host") "") (orElse (stringAt m "gsPort") "") st.
Proof.
  intros Ha Hm. apply String.eqb_neq in Ha.
  unfold servercmd.RunGSQL, getMachineConfig. rewrite Ha, Hm. reflexivity.
Qed.

Lemma alias_replaces_the_flags_witness :
  let machines := fun alias : string =>
    if String.eqb alias "prod"
    then Some (AMap (fun key : string =>
                 if String.eqb key "host" then Some (AString "http://10.0.0.7")
                 else if String.eqb key "gsPort" then Some AOther
                 else None))
    else None in
  servercmd.RunGSQL noURLError welcomingServer machines versionCommits []
    "prod" "tigergraph" "tigergraph" "http://127.0.0.1" "14240" freshState
  = servercmd.RunGSQL noURLError welcomingServer machines versionCommits []
      "" "" "" "http://10.0.0.7" "" freshState.
Proof.
  intros machines.
  apply (alias_replaces_the_flags noURLError welcomingServer machines versionCommits []
           "prod" "tigergraph" "tigergraph" "http://127.0.0.1" "14240"
           (fun key : string =>
              if String.eqb key "host" then Some (AString "http://10.0.0.7")
              else if String.eqb key "gsPort" then Some AOther
              else None) freshState).
  - discriminate.
  - reflexivity.
Defined.

(** X12.  An alias that names no stored machine, or one that is not a map,
    ends [RunGSQL] at once: the message naming the alias is all that is
    printed, and nothing is sent, whatever the flags hold. *)
Theorem unknown_alias_sends_nothing
    nre tr machines order input alias user password host gsPort st :
  alias <> "" ->
  (forall m, machines alias <> Some (AMap m)) ->
  servercmd.RunGSQL nre tr machines order input alias user password host gsPort st
  = (Ok tt, afterPrint ("Alias " ++ alias ++ " not found. Try: tg conf list"
                        ++ String newline "") st).
Proof.
  intros Ha Hm. apply String.eqb_neq in Ha.
  unfold servercmd.RunGSQL, getMachineConfig. rewrite Ha. cbn [negb].
  destruct (machines alias) as [[s|m|]|]; try reflexivity.
  destruct (Hm m eq_refl).
Qed.

Lemma unknown_alias_sends_nothing_witness :
  servercmd.RunGSQL noURLError welcomingServer
    (fun alias : string => if String.eqb alias "prod" then Some (AString "10.0.0.7") else None)
    versionCommits [("ls", None)] "prod" "tigergraph" "tigergraph" "http://127.0.0.1" "14240"
    freshState
  = (Ok tt, afterPrint ("Alias prod not found. Try: tg conf list" ++ nl) freshState).
Proof.
  apply (unknown_alias_sends_nothing noURLError welcomingServer
           (fun alias : string =>
              if String.eqb alias "prod" then Some (AString "10.0.0.7") else None)
           versionCommits [("ls", None)] "prod" "tigergraph" "tigergraph"
           "http://127.0.0.1" "14240" freshState).
  - discriminate.
  - intros m. cbn. discriminate.
Defined.

(** X13.  When the server accepts no attempt, [RunGSQL] gives the client
    the login request of each entry of the table and nothing else, prints the
    single line [Error logging in to TigerGraph: unable to establish
    compatible connection], and returns: no prompt is shown and no line of
    the input is read. *)
Theorem RunGSQL_reports_a_failed_login
    nre tr machines order input user password host gsPort st :
  let s0 := newGSQLSession host gsPort user password in
  nre (loginURL s0) = None ->
  (forall hist req, accepted user (tr hist req) = false) ->
  exists st',
    servercmd.RunGSQL nre tr machines order input "" user password host gsPort st
    = (Ok tt, st') /\
    sent st' = List.app (sent st) (map (attemptRequest s0) order) /\
    stdout st' = stdout st ++ "Error logging in to TigerGraph: "
                 ++ "unable to establish compatible connection" ++ String newline "".
Proof.
  intros s0 Hnre Hacc. rewrite RunGSQL_flags. fold s0.
  rewrite (login_nothing_accepted nre tr order (mkState s0 (sent st) (stdout st)) Hnre Hacc).
  eexists. split; [reflexivity|]. split; reflexivity.
Qed.

Lemma RunGSQL_reports_a_failed_login_witness :
  exists st',
    servercmd.RunGSQL noURLError rejectingServer (fun _ => None) versionCommits
      [("ls", None)] "" "tigergraph" "tigergraph" "http://127.0.0.1" "14240" freshState
    = (Ok tt, st') /\
    sent st' = List.app (sent freshState)
                 (map (attemptRequest
                         (newGSQLSession "http://127.0.0.1" "14240" "tigergraph" "tigergraph"))
                    versionCommits) /\
    stdout st' = stdout freshState ++ "Error logging in to TigerGraph: "
                 ++ "unable to establish compatible connection" ++ String newline "".
Proof.
  apply (RunGSQL_reports_a_failed_login noURLError rejectingServer (fun _ => None)
           versionCommits [("ls", None)] "tigergraph" "tigergraph" "http://127.0.0.1"
           "14240" freshState).
  - reflexivity.
  - intros hist req. vm_compute. reflexivity.
Defined.




(* ================================================================== *)
(** * [maskPassword] *)

Lemma Repeat_star_length n : String.length (config.Repeat "*" n) = n.
Proof. induction n; cbn; [reflexivity | now rewrite IHn]. Qed.

Lemma length_app (a b : string) :
  String.length (a ++ b) = String.length a + String.length b.
Proof. induction a; cbn; [reflexivity | now rewrite IHa]. Qed.

Lemma length_drop n : forall s, String.length (drop n s) = String.length s - n.
Proof.
  induction n as [|n IH]; intros [|c s]; cbn; try reflexivity. apply IH.
Qed.

Lemma get_Repeat_star n : forall i, i < n -> String.get i (config.Repeat "*" n) = Some "*"%char.
Proof.
  induction n as [|n IH]; intros i Hi; [lia|].
  destruct i; cbn; [reflexivity|]. apply IH. lia.
Qed.

Lemma get_app_l (a b : string) :
  forall i, i < String.length a -> String.get i (a ++ b) = String.get i a.
Proof.
  induction a as [|c a IH]; intros i Hi; cbn in *; [lia|].
  destruct i; [reflexivity|]. apply IH. lia.
Qed.

Lemma get_app_r (a b : string) :
  forall i, String.length a <= i ->
    String.get i (a ++ b) = String.get (i - String.length a) b.
Proof.
  induction a as [|c a IH]; intros i Hi; cbn in *.
  - now rewrite Nat.sub_0_r.
  - destruct i; [lia|]. apply IH. lia.
Qed.

Lemma get_drop n : forall s i, n <= String.length s ->
  String.get i (drop n s) = String.get (n + i) s.
Proof.
  induction n as [|n IH]; intros [|c s] i Hn; cbn in *; try reflexivity; try lia.
  apply IH. lia.
Qed.

(** X16.  [maskPassword] keeps the length of the password in bytes; a
    password of at most three bytes is shown as stars only; of a longer one
    the first and the last byte are shown as they are and every byte between
    them as a star. *)
Theorem maskPassword_shows_only_the_ends (password : string) :
  String.length (config.maskPassword password) = String.length password /\
  forall i, i < String.length password ->
    String.get i (config.maskPassword password)
    = if Nat.ltb 3 (String.length password)
         && (Nat.eqb i 0 || Nat.eqb i (String.length password - 1))
      then String.get i password
      else Some "*"%char.
Proof.
  unfold config.maskPassword.
  destruct password as [|c rest]; [split; [reflexivity | cbn; lia]|].
  cbn [String.eqb]. set (p := String c rest).
  assert (Hlen : String.length p = S (String.length rest)) by reflexivity.
  destruct (Nat.leb (String.length p) 3) eqn:Hle.
  - apply Nat.leb_le in Hle. split; [apply Repeat_star_length|].
    intros i Hi. rewrite get_Repeat_star by exact Hi.
    replace (Nat.ltb 3 (String.length p)) with false; [reflexivity|].
    symmetry. apply Nat.ltb_ge. exact Hle.
  - apply Nat.leb_gt in Hle.
    assert (Ht : take 1 p = String c "") by reflexivity.
    rewrite Ht. split.
    + rewrite !length_app, Repeat_star_length, length_drop. cbn [String.length]. lia.
    + intros i Hi.
      replace (Nat.ltb 3 (String.length p)) with true
        by (symmetry; apply Nat.ltb_lt; exact Hle).
      cbn [andb]. destruct i as [|i]; [reflexivity|].
      change (Nat.eqb (S i) 0) with false. cbn [orb].
      rewrite (get_app_r (String c "")) by (cbn; lia).
      replace (S i - String.length (String c "")) with i by (cbn; lia).
      destruct (Nat.eqb (S i) (String.length p - 1)) eqn:Hi'.
      * apply Nat.eqb_eq in Hi'.
        rewrite get_app_r by (rewrite Repeat_star_length; lia).
        rewrite Repeat_star_length, get_drop by lia.
        f_equal. lia.
      * apply Nat.eqb_neq in Hi'.
        rewrite get_app_l by (rewrite Repeat_star_length; lia).
        apply get_Repeat_star. lia.
Qed.
